(** * A shallow embedding of the Deep-Q fighting-game agent

    The development follows the two Python sources, [Agent.py] (the base
    class: experience buffer, recording, review cycle, persistence) and
    [DeepQAgent.py] (feature encoder, epsilon-greedy move selection, the
    temporal-difference training pass).

    Conventions of the embedding:
    - Python [int]s are [Z]; Python/NumPy floating-point numbers are an
      abstract carrier with the operations the code uses (class [Number]),
      instantiated with exact rationals [Q] and with IEEE binary64
      ([PrimFloat.float]);
    - a telemetry dictionary is a [gmap string Z]; a missing key raises
      [KeyError];
    - exceptions are explicit: pure helpers return [Res], methods run in
      the state-and-exception monad [M], where the state reached when an
      exception is raised is kept, as it is for a Python object;
    - the Keras network and the random generators are collaborators: the
      network is a [Approximator] instance, the generators are oracles
      stored in [World] together with read cursors and call logs. *)

From Stdlib Require Import ZArith QArith Qpower Qabs Lqa Lia List Permutation.
From Stdlib Require Import PrimFloat Uint63 Ascii.
From Stdlib Require SpecFloat FloatOps FloatAxioms.
From stdpp Require Import base option list gmap strings.

Local Open Scope Z_scope.

(** ** Python exceptions and fallible results *)

Inductive PyExc :=
| KeyError | IndexError | ValueError | AttributeError | TypeError
| ZeroDivisionError | NotImplementedError.

Inductive Res (A : Type) :=
| Ok (a : A)
| Raise (e : PyExc).
Arguments Ok {A} a.
Arguments Raise {A} e.

#[global] Instance Res_ret : MRet Res := fun _ a => Ok a.
#[global] Instance Res_bind : MBind Res := fun _ _ f r =>
  match r with
  | Ok a => f a
  | Raise e => Raise e
  end.

Definition is_Ok {A} (r : Res A) : bool :=
  match r with Ok _ => true | Raise _ => false end.

(** ** Numbers *)

Class Number (num : Type) := {
  nadd : num -> num -> num;
  nmul : num -> num -> num;
  ndiv : num -> num -> num;
  nltb : num -> num -> bool;
  nleb : num -> num -> bool;
  nisnan : num -> bool;
  of_int : Z -> num
}.

(** A decimal literal [n/d], e.g. [0.999] is [decimal 999 1000]. *)
Definition decimal {num : Type} `{Number num} (n d : Z) : num :=
  ndiv (of_int n) (of_int d).

Definition Qltb (x y : Q) : bool := negb (Qle_bool y x).

#[global] Instance Q_Number : Number Q := {|
  nadd := Qplus;
  nmul := Qmult;
  ndiv := Qdiv;
  nltb := Qltb;
  nleb := Qle_bool;
  nisnan := fun _ => false;
  of_int := inject_Z
|}.

Definition float_of_int (z : Z) : float :=
  match z with
  | Z0 => PrimFloat.zero
  | Zpos _ => PrimFloat.of_uint63 (Uint63.of_Z z)
  | Zneg p => PrimFloat.opp (PrimFloat.of_uint63 (Uint63.of_Z (Zpos p)))
  end.

#[global] Instance float_Number : Number float := {|
  nadd := PrimFloat.add;
  nmul := PrimFloat.mul;
  ndiv := PrimFloat.div;
  nltb := PrimFloat.ltb;
  nleb := PrimFloat.leb;
  nisnan := PrimFloat.is_nan;
  of_int := float_of_int
|}.

(** The two facts about [<] that the properties of the largest entry
    need.  They hold for the rationals and for binary64 numbers: a
    comparison with NaN is false, hence the proviso of the second. *)
Class NumberOrder (num : Type) {NU : Number num} : Prop := {
  nltb_asym : forall a b : num, nltb a b = true -> nltb b a = false;
  nltb_le_lt : forall x y z : num,
    nisnan y = false ->
    nltb x y = false -> nltb x z = true -> nltb y z = true
}.

(** ** Python and NumPy containers *)

(** [d[k]] on a dictionary. *)
Definition getitem `{Countable K} {V} (d : gmap K V) (k : K) : Res V :=
  match d !! k with
  | Some v => Ok v
  | None => Raise KeyError
  end.

(** [l[i] = x] on a list or a one-dimensional array: a negative index
    counts from the end, anything outside [-len, len) raises. *)
Definition setitem {A} (l : list A) (i : Z) (x : A) : Res (list A) :=
  let n := Z.of_nat (length l) in
  if (0 <=? i) && (i <? n) then Ok (<[Z.to_nat i := x]> l)
  else if (- n <=? i) && (i <? 0) then Ok (<[Z.to_nat (n + i) := x]> l)
  else Raise IndexError.

(** [x in l] on a list of integers. *)
Definition contains (l : list Z) (x : Z) : bool := existsb (Z.eqb x) l.

(** [numpy.reshape(v, [1, cols])]: the element count must be [cols]; a
    dimension of [-1] is inferred.  The result is a one-row matrix, it is
    represented by that row.  The entries are kept as they are: on a list
    of Python integers this is NumPy's conversion to a 64-bit integer
    array, which is exact for entries in [[-2^63, 2^63)]. *)
Definition reshape_row {A} (v : list A) (cols : Z) : Res (list A) :=
  if (cols =? -1) || (Z.of_nat (length v) =? 1 * cols) then Ok v
  else Raise ValueError.

(** [deque(maxlen= n).append(x)]: once full, the leftmost item is dropped. *)
Definition deque_append {A} (maxlen : Z) (d : list A) (x : A) : list A :=
  if maxlen =? 0 then d
  else if Z.of_nat (length d) =? maxlen then tail d ++ [x]
  else d ++ [x].

(** ** The feature encoder ([DeepQAgent.prepareNetworkInputs]) *)

Definition stateIndices_items : list (Z * Z) :=
  [(512, 0); (514, 1); (516, 2); (518, 3); (520, 4);
   (522, 5); (524, 6); (526, 7); (532, 8)].
Definition stateIndices : gmap Z Z := list_to_map stateIndices_items.
Definition doneKeys : list Z := [0; 528; 530; 1024; 1026; 1028; 1030; 1032].

Definition prepareNetworkInputs (stateSize : Z) (step : gmap string Z)
  : Res (list Z) :=
  let feature_vector : list Z := [] in
  (* Enemy Data *)
  v ← getitem step "enemy_health";
  let feature_vector := feature_vector ++ [v] in
  v ← getitem step "enemy_x_position";
  let feature_vector := feature_vector ++ [v] in
  v ← getitem step "enemy_y_position";
  let feature_vector := feature_vector ++ [v] in
  (* one hot encode enemy state *)
  let oneHotEnemyState := replicate (size stateIndices) 0 in
  c ← getitem step "enemy_status";
  oneHotEnemyState ←
    (if negb (contains doneKeys c) then
       k ← getitem step "enemy_status";
       i ← getitem stateIndices k;
       setitem oneHotEnemyState i 1
     else Ok oneHotEnemyState);
  let feature_vector := feature_vector ++ oneHotEnemyState in
  (* one hot encode enemy character *)
  let oneHotEnemyChar := replicate 8 0 in
  i ← getitem step "enemy_character";
  oneHotEnemyChar ← setitem oneHotEnemyChar i 1;
  let feature_vector := feature_vector ++ oneHotEnemyChar in
  (* Player Data *)
  v ← getitem step "health";
  let feature_vector := feature_vector ++ [v] in
  v ← getitem step "x_position";
  let feature_vector := feature_vector ++ [v] in
  v ← getitem step "y_position";
  let feature_vector := feature_vector ++ [v] in
  let oneHotPlayerState := replicate (size stateIndices) 0 in
  c ← getitem step "status";
  oneHotPlayerState ←
    (if negb (contains doneKeys c) then
       k ← getitem step "status";
       i ← getitem stateIndices k;
       setitem oneHotPlayerState i 1
     else Ok oneHotPlayerState);
  let feature_vector := feature_vector ++ oneHotPlayerState in
  reshape_row feature_vector stateSize.

(** The one-hot vector of length [n] with its single 1 at index [i]. *)
Definition one_hot (n : nat) (i : nat) : list Z := <[i := 1]> (replicate n 0).

Definition example_state : gmap string Z :=
  list_to_map
    [("enemy_health", 176); ("enemy_x_position", 300); ("enemy_y_position", 192);
     ("enemy_status", 514); ("enemy_character", 3);
     ("health", 150); ("x_position", 205); ("y_position", 192);
     ("status", 520); ("round_timer", 9000)].

(** ** NumPy reductions *)

(** [numpy.maximum(a, b)]: the larger operand, the first one on a tie; a
    NaN operand is propagated (the first one when both are NaN). *)
Definition np_maximum {num : Type} `{Number num} (a b : num) : num :=
  if nisnan a then a
  else if nisnan b then b
  else if nltb a b then b else a.

(** [numpy.amax(v)]: [maximum] reduced over the entries, so the largest
    entry, or NaN when an entry is NaN; an empty array raises. *)
Definition amax {num : Type} `{Number num} (v : list num) : Res num :=
  match v with
  | [] => Raise ValueError
  | x :: v' => Ok (fold_left np_maximum v' x)
  end.

(** [numpy.argmax(v)]: the index of the first occurrence of the largest
    entry, where a NaN counts as largest: the scan moves to an entry [x]
    when [not (x <= best)] and stops at the first NaN; an empty array
    raises. *)
Fixpoint argmax_from {num : Type} `{Number num}
    (best : num) (besti i : Z) (v : list num) : Z :=
  match v with
  | [] => besti
  | x :: v' =>
      if nisnan best then besti
      else if nltb best x || nisnan x then argmax_from x i (i + 1) v'
      else argmax_from best besti (i + 1) v'
  end.

Definition argmax {num : Type} `{Number num} (v : list num) : Res Z :=
  match v with
  | [] => Raise ValueError
  | x :: v' => Ok (argmax_from x 0 1 v')
  end.

(** [sum(v)], which starts from the integer 0. *)
Definition py_sum {num : Type} `{Number num} (v : list num) : num :=
  fold_left nadd v (of_int 0).

(** [x / n] for an integer [n]. *)
Definition truediv {num : Type} `{Number num} (x : num) (n : Z) : Res num :=
  if n =? 0 then Raise ZeroDivisionError else Ok (ndiv x (of_int n)).

(** ** [random.sample]

    CPython's selection loop over a copy of the population (the branch
    taken whenever the sample is the whole population):
    [j = randbelow(n - i); result[i] = pool[j]; pool[j] = pool[n - i - 1]].
    [draw] is the generator's outcome sequence, read from [pos];
    [m] is [n - i], the number of live slots. *)
Fixpoint sample_loop {A} (draw : nat -> nat) (pos : nat)
    (pool : list A) (m k : nat) : list A :=
  match k with
  | O => []
  | S k' =>
      let j := (draw pos `mod` m)%nat in
      match pool !! j, pool !! (m - 1)%nat with
      | Some x, Some y =>
          x :: sample_loop draw (S pos) (<[j := y]> pool) (m - 1) k'
      | _, _ => []
      end
  end.

Definition random_sample {A} (draw : nat -> nat) (pos : nat)
    (population : list A) (k : nat) : Res (list A) :=
  if (length population <? k)%nat then Raise ValueError
  else Ok (sample_loop draw pos population (length population) k).

(** ** The approximator collaborator

    [predict] returns the row of action-values of one feature vector
    ([model.predict(x)[0]]); [fit] performs one gradient step toward a
    target row and reports the loss of that step to its callbacks. *)
Class Approximator (num : Type) := {
  Model : Type;
  predict : Model -> list Z -> list num;
  fit : Model -> list Z -> list num -> Model * num
}.

(** ** Agent state *)

(** One recorded decision step: the 7-tuple stored by [recordStep], fields
    in the order of [OBSERVATION_INDEX] ... [DONE_INDEX]. *)
Record Step {Obs num : Type} := mkStep {
  step_observation : Obs;
  step_state : gmap string Z;
  step_action : Z;
  step_reward : num;
  step_nextObservation : Obs;
  step_nextState : gmap string Z;
  step_done : bool
}.
Arguments Step : clear implicits.

(** One prepared training point:
    [[features(state), action, reward, done, features(next state)]]. *)
Definition Sample (num : Type) : Type := (list Z * Z * num * bool * list Z)%type.

Definition sample_state {num : Type} (s : Sample num) : list Z :=
  let '(state, _, _, _, _) := s in state.
Definition sample_action {num : Type} (s : Sample num) : Z :=
  let '(_, action, _, _, _) := s in action.

(** An environment object, as far as the agent uses it: the outcome of its
    method [get_action_meaning], which is not code of these sources and may
    raise. *)
Record Environment := { get_action_meaning : Z -> Res (list string) }.

(** The attributes of an agent object.  [lastAction] and [environment] are
    [None] while the attribute has never been assigned (no method of the
    two sources assigns [environment]); [model] is the Keras model object
    that [self.model] refers to. *)
Record Self {Obs num : Type} {AP : Approximator num} := mkSelf {
  name : string;
  memory : list (Step Obs num);
  lastAction : option Z;
  model : Model;
  stateSize : Z;
  actionSize : Z;
  gamma : num;
  epsilon : num;
  epsilonDecay : num;
  learningRate : num;
  lossHistory : list num;
  environment : option Environment
}.
Arguments Self Obs num {AP}.

(** An action space of the environment: the outcomes of its [sample()]. *)
Record ActionSpace := { sample_outcome : nat -> Z }.

(** Everything outside the agent object: the generators' outcome
    sequences with their read positions, the log of calls made to the
    approximator, and the files written. *)
Record World {num : Type} {AP : Approximator num} := mkWorld {
  np_rand : nat -> num;             (* outcomes of numpy.random.rand() *)
  np_pos : nat;
  py_randbelow : nat -> nat;        (* outcomes of the random module *)
  py_pos : nat;
  space_pos : nat;                  (* draws taken from action spaces *)
  predict_calls : list (list Z);
  fit_calls : list (list Z * list num);
  weights_files : gmap string Model;
  log_files : gmap string (list num)
}.
Arguments World num {AP}.

Section Embedding.
Context {Obs num : Type} {NU : Number num} {AP : Approximator num}.

Local Abbreviation Self := (Self Obs num).
Local Abbreviation World := (World num).
Local Abbreviation Step := (Step Obs num).

Definition set_memory (v : list Step) (s : Self) : Self :=
  mkSelf _ _ _ (name s) v (lastAction s) (model s) (stateSize s) (actionSize s)
    (gamma s) (epsilon s) (epsilonDecay s) (learningRate s) (lossHistory s)
    (environment s).
Definition set_lastAction (v : option Z) (s : Self) : Self :=
  mkSelf _ _ _ (name s) (memory s) v (model s) (stateSize s) (actionSize s)
    (gamma s) (epsilon s) (epsilonDecay s) (learningRate s) (lossHistory s)
    (environment s).
Definition set_model (v : Model) (s : Self) : Self :=
  mkSelf _ _ _ (name s) (memory s) (lastAction s) v (stateSize s) (actionSize s)
    (gamma s) (epsilon s) (epsilonDecay s) (learningRate s) (lossHistory s)
    (environment s).
Definition set_epsilon (v : num) (s : Self) : Self :=
  mkSelf _ _ _ (name s) (memory s) (lastAction s) (model s) (stateSize s)
    (actionSize s) (gamma s) v (epsilonDecay s) (learningRate s) (lossHistory s)
    (environment s).
Definition set_lossHistory (v : list num) (s : Self) : Self :=
  mkSelf _ _ _ (name s) (memory s) (lastAction s) (model s) (stateSize s)
    (actionSize s) (gamma s) (epsilon s) (epsilonDecay s) (learningRate s) v
    (environment s).
Definition set_environment (v : option Environment) (s : Self) : Self :=
  mkSelf _ _ _ (name s) (memory s) (lastAction s) (model s) (stateSize s)
    (actionSize s) (gamma s) (epsilon s) (epsilonDecay s) (learningRate s)
    (lossHistory s) v.

Definition set_np_pos (v : nat) (w : World) : World :=
  mkWorld _ _ (np_rand w) v (py_randbelow w) (py_pos w) (space_pos w)
    (predict_calls w) (fit_calls w) (weights_files w) (log_files w).
Definition set_py_pos (v : nat) (w : World) : World :=
  mkWorld _ _ (np_rand w) (np_pos w) (py_randbelow w) v (space_pos w)
    (predict_calls w) (fit_calls w) (weights_files w) (log_files w).
Definition set_space_pos (v : nat) (w : World) : World :=
  mkWorld _ _ (np_rand w) (np_pos w) (py_randbelow w) (py_pos w) v
    (predict_calls w) (fit_calls w) (weights_files w) (log_files w).
Definition set_predict_calls (v : list (list Z)) (w : World) : World :=
  mkWorld _ _ (np_rand w) (np_pos w) (py_randbelow w) (py_pos w) (space_pos w)
    v (fit_calls w) (weights_files w) (log_files w).
Definition set_fit_calls (v : list (list Z * list num)) (w : World) : World :=
  mkWorld _ _ (np_rand w) (np_pos w) (py_randbelow w) (py_pos w) (space_pos w)
    (predict_calls w) v (weights_files w) (log_files w).
Definition set_weights_files (v : gmap string Model) (w : World) : World :=
  mkWorld _ _ (np_rand w) (np_pos w) (py_randbelow w) (py_pos w) (space_pos w)
    (predict_calls w) (fit_calls w) v (log_files w).
Definition set_log_files (v : gmap string (list num)) (w : World) : World :=
  mkWorld _ _ (np_rand w) (np_pos w) (py_randbelow w) (py_pos w) (space_pos w)
    (predict_calls w) (fit_calls w) (weights_files w) v.

(** ** The method monad: state passing with exceptions *)

Definition M (A : Type) : Type := Self * World -> Res A * (Self * World).

#[global] Instance M_ret : MRet M := fun _ a st => (Ok a, st).
#[global] Instance M_bind : MBind M := fun _ _ f m st =>
  match m st with
  | (Ok a, st') => f a st'
  | (Raise e, st') => (Raise e, st')
  end.

Definition get_self : M Self := fun st => (Ok (fst st), st).
Definition get_world : M World := fun st => (Ok (snd st), st).
Definition modify_self (f : Self -> Self) : M unit :=
  fun st => (Ok tt, (f (fst st), snd st)).
Definition modify_world (f : World -> World) : M unit :=
  fun st => (Ok tt, (fst st, f (snd st))).
Definition lift {A} (r : Res A) : M A := fun st => (r, st).

(** [for x in l: body(x)] *)
Fixpoint for_each {A} (body : A -> M unit) (l : list A) : M unit :=
  match l with
  | [] => mret tt
  | x :: l' => _ ← body x; for_each body l'
  end.

(** Reading an attribute that may never have been assigned. *)
Definition getattr {A} (attr : option A) : M A :=
  lift (match attr with Some v => Ok v | None => Raise AttributeError end).

(** ** [Agent.py] *)

Definition MAX_DATA_LENGTH : Z := 50000.
Definition DEFAULT_MODELS_DIR_PATH : string := "../models".
Definition DEFAULT_LOGS_DIR_PATH : string := "../logs".

(** What a name of a class body is bound to. *)
Inductive PyVal :=
| VInt (z : Z)
| VStr (s : string)
| VFunction.

(** The names that the body of [class Agent] binds, in source order
    ([Agent] has no base class other than [object]). *)
Definition Agent_class : list (string * PyVal) :=
  [("OBSERVATION_INDEX", VInt 0); ("STATE_INDEX", VInt 1);
   ("ACTION_INDEX", VInt 2); ("REWARD_INDEX", VInt 3);
   ("NEXT_OBSERVATION_INDEX", VInt 4); ("NEXT_STATE_INDEX", VInt 5);
   ("DONE_INDEX", VInt 6);
   ("MAX_DATA_LENGTH", VInt MAX_DATA_LENGTH);
   ("DEFAULT_MODELS_DIR_PATH", VStr DEFAULT_MODELS_DIR_PATH);
   ("DEFAULT_LOGS_DIR_PATH", VStr DEFAULT_LOGS_DIR_PATH);
   ("getStates", VFunction); ("convertMoveToFrameInputs", VFunction);
   ("__init__", VFunction); ("prepareForNextFight", VFunction);
   ("getRandomMove", VFunction); ("recordStep", VFunction);
   ("reviewFight", VFunction); ("loadModel", VFunction);
   ("saveModel", VFunction); ("getModelName", VFunction);
   ("getLogsName", VFunction); ("getMove", VFunction);
   ("initializeNetwork", VFunction); ("prepareMemoryForTraining", VFunction);
   ("trainNetwork", VFunction)].

(** [cls.attr] on a class given by the names its body binds. *)
Fixpoint class_getattr (cls : list (string * PyVal)) (attr : string)
  : Res PyVal :=
  match cls with
  | [] => Raise AttributeError
  | (n, v) :: rest => if String.eqb n attr then Ok v else class_getattr rest attr
  end.

(** [os.path.join(dir, file)] *)
Definition path_join (dir file : string) : string := dir +:+ "/" +:+ file.

(** [convertMoveToFrameInputs]: its body is [pass], the result is [None]. *)
Definition convertMoveToFrameInputs (move : Z) : unit := tt.

(** [self.memory = deque(maxlen= Agent.MAX_DATA_LENGTH)] *)
Definition prepareForNextFight : M unit := modify_self (set_memory []).

(** [getRandomMove(self, action_space)]; [None] stands for a call that
    omits the required positional argument. *)
Definition getRandomMove (action_space : option ActionSpace) : M Z :=
  match action_space with
  | None => lift (Raise TypeError)
  | Some sp =>
      w ← get_world;
      let move := sample_outcome sp (space_pos w) in
      _ ← modify_world (set_space_pos (S (space_pos w)));
      mret move
  end.

Definition recordStep (observation : Obs) (state : gmap string Z)
    (reward : num) (nextObservation : Obs) (nextState : gmap string Z)
    (done : bool) : M unit :=
  self ← get_self;
  action ← getattr (lastAction self);
  modify_self
    (set_memory
       (deque_append MAX_DATA_LENGTH (memory self)
          (mkStep _ _ observation state action reward
                  nextObservation nextState done))).

Definition getModelName (self : Self) : string := name self +:+ "Model".
Definition getLogsName (self : Self) : string := name self +:+ "Logs".

(** [open(path, 'a+')] creates the file when it does not exist. *)
Definition open_append (path : string) (w : World) : World :=
  set_log_files (<[path := default [] (log_files w !! path)]> (log_files w)) w.

(** One line appended to a log file; the line is represented by the number
    that [str] renders. *)
Definition write_line (path : string) (v : num) (w : World) : World :=
  set_log_files
    (<[path := default [] (log_files w !! path) ++ [v]]> (log_files w)) w.

Definition saveModel : M unit :=
  self ← get_self;
  _ ← modify_world (fun w =>
        set_weights_files
          (<[path_join DEFAULT_MODELS_DIR_PATH (getModelName self) := model self]>
             (weights_files w)) w);
  let path := path_join DEFAULT_LOGS_DIR_PATH (getLogsName self) in
  _ ← modify_world (open_append path);
  mean ← lift (truediv (py_sum (lossHistory self))
                       (Z.of_nat (length (lossHistory self))));
  modify_world (write_line path mean).

(** The base class's [getMove(self, action_space, obs, info)]. *)
Definition Agent_getMove (action_space : ActionSpace) (obs : Obs)
    (info : gmap string Z) : M unit :=
  move ← getRandomMove (Some action_space);
  _ ← modify_self (set_lastAction (Some move));
  let frameInputs := convertMoveToFrameInputs move in
  mret frameInputs.

(** ** [DeepQAgent.py] *)

Definition EPSILON_MIN : num := decimal 1 10.
Definition DEFAULT_EPSILON_DECAY : num := decimal 999 1000.
Definition DEFAULT_DISCOUNT_RATE : num := decimal 98 100.
Definition DEFAULT_LEARNING_RATE : num := decimal 1 10000.

(** Modelled from the spec: the class [LossHistory] (module [LossHistory],
    not among the sources) is the per-episode loss history: it is cleared
    at the start of each training pass and, as a callback of [fit],
    receives the scalar loss of every fitting step. *)
Definition losses_clear : M unit := modify_self (set_lossHistory []).

(** Modelled from the spec: the callback of [LossHistory] appends the
    loss of the fitting step that just ended. *)
Definition losses_append (loss : num) : M unit :=
  self ← get_self;
  modify_self (set_lossHistory (lossHistory self ++ [loss])).

(** [self.model.predict(x)[0]], logged in [predict_calls]. *)
Definition model_predict (x : list Z) : M (list num) :=
  self ← get_self;
  w ← get_world;
  _ ← modify_world (set_predict_calls (predict_calls w ++ [x]));
  mret (predict (model self) x).

(** [model.fit(x, y, epochs= 1, verbose= 0, callbacks= [self.lossHistory])]:
    the model object is updated in place, the call is logged in
    [fit_calls]. *)
Definition model_fit (x : list Z) (y : list num) : M unit :=
  self ← get_self;
  w ← get_world;
  let '(m', loss) := fit (model self) x y in
  _ ← modify_self (set_model m');
  _ ← modify_world (set_fit_calls (fit_calls w ++ [(x, y)]));
  losses_append loss.

(** [__init__]: the attributes a freshly constructed Q-learning agent
    holds, following the assignments of [DeepQAgent.__init__] and then of
    [Agent.__init__] (the keyword arguments [game] and [render] of the
    [super] call belong to a base-class signature that [Agent.py] does not
    have; they carry no attribute).  [net] is the network returned by
    [initializeNetwork] (with the stored weights when [load] is set).
    Nothing assigns [lastAction] or [environment]. *)
Definition DeepQAgent_init (stateSize actionSize : Z) (load : bool)
    (epsilon : num) (name : option string) (net : Model) : Self :=
  {| name := match name with None => "DeepQAgent" | Some n => n end;
     memory := [];
     lastAction := None;
     model := net;
     stateSize := stateSize;
     actionSize := actionSize;
     gamma := DEFAULT_DISCOUNT_RATE;
     epsilon := if load then EPSILON_MIN else epsilon;
     epsilonDecay := DEFAULT_EPSILON_DECAY;
     learningRate := DEFAULT_LEARNING_RATE;
     lossHistory := [];
     environment := None |}.

Definition isActionableState (info : gmap string Z) (action : Z) : M bool :=
  self ← get_self;
  environment ← getattr (environment self);
  action ← lift (get_action_meaning environment action);
  t ← lift (getitem info "round_timer");
  if t =? 39208 then mret false else mret true.

(** [getMove] returns [Agent.NO_MOVE], a name looked up in [class Agent],
    or an action index. *)
Definition getMove (obs : Obs) (info : gmap string Z) : M PyVal :=
  actionable ← isActionableState info 0;
  if negb actionable then
    no_move ← lift (class_getattr Agent_class "NO_MOVE");
    mret no_move
  else
    w ← get_world;
    let u := np_rand w (np_pos w) in
    _ ← modify_world (set_np_pos (S (np_pos w)));
    self ← get_self;
    if nleb u (epsilon self) then
      move ← getRandomMove None;
      mret (VInt move)
    else
      stateData ← lift (prepareNetworkInputs (stateSize self) info);
      move ← model_predict stateData;
      move ← lift (argmax move);
      mret (VInt move).

(** The loop of [prepareMemoryForTraining]; [data] is the list built so
    far. *)
Fixpoint prepare_loop (self : Self) (steps : list Step)
    (data : list (Sample num)) : Res (list (Sample num)) :=
  match steps with
  | [] => Ok data
  | step :: rest =>
      s ← prepareNetworkInputs (stateSize self) (step_state step);
      s' ← prepareNetworkInputs (stateSize self) (step_nextState step);
      prepare_loop self rest
        (data ++ [(s, step_action step, step_reward step, step_done step, s')])
  end.

(** The argument [memory] is not read: the loop runs over [self.memory]. *)
Definition prepareMemoryForTraining (_memory : list Step)
  : M (list (Sample num)) :=
  self ← get_self;
  lift (prepare_loop self (memory self) []).

(** The body of the loop of [trainNetwork]. *)
Definition train_step (sample : Sample num) : M unit :=
  let '(state, action, reward, done, next_state) := sample in
  modelOutput ← model_predict state;
  reward ←
    (if negb done then
       self ← get_self;
       q ← model_predict next_state;
       best ← lift (amax q);
       mret (nadd reward (nmul (gamma self) best))
     else mret reward);
  modelOutput ← lift (setitem modelOutput action reward);
  self ← get_self;
  modelOutput ← lift (reshape_row modelOutput (actionSize self));
  model_fit state modelOutput.

(** [trainNetwork(self, data, model)]: the parameter [model] and
    [self.model] refer to one object (the only caller passes
    [self.model]), which [fit] updates in place and which is returned. *)
Definition trainNetwork (data : list (Sample num)) : M unit :=
  w ← get_world;
  minibatch ← lift (random_sample (py_randbelow w) (py_pos w) data (length data));
  _ ← modify_world (set_py_pos (py_pos w + length data)%nat);
  _ ← losses_clear;
  _ ← for_each train_step minibatch;
  self ← get_self;
  if nltb EPSILON_MIN (epsilon self)
  then modify_self (set_epsilon (nmul (epsilon self) (epsilonDecay self)))
  else mret tt.

(** [Agent.reviewFight], for a Q-learning agent: the two methods it calls
    on [self] are the overrides above. *)
Definition reviewFight : M unit :=
  self ← get_self;
  data ← prepareMemoryForTraining (memory self);
  _ ← trainNetwork data;
  _ ← saveModel;
  prepareForNextFight.

(** ** The training targets, as the Trainer is documented

    The target of one sample under the model [m]: the reward when the
    transition is terminal, otherwise the reward plus the discounted
    largest predicted value of the next state. *)
Definition td_target (m : Model) (discount : num) (sample : Sample num)
  : Res num :=
  let '(_, _, reward, done, next_state) := sample in
  if done then Ok reward
  else best ← amax (predict m next_state);
       Ok (nadd reward (nmul discount best)).

(** The row handed to [fit] for one sample. *)
Definition target_row (m : Model) (discount : num) (cols : Z)
    (sample : Sample num) : Res (list num) :=
  let '(state, action, _, _, _) := sample in
  tgt ← td_target m discount sample;
  y ← setitem (predict m state) action tgt;
  reshape_row y cols.

(** The fitting calls of one pass over [batch], each computed with the
    model as the previous fitting steps left it. *)
Fixpoint expected_fits (m : Model) (discount : num) (cols : Z)
    (batch : list (Sample num)) : list (list Z * list num) :=
  match batch with
  | [] => []
  | sample :: rest =>
      match target_row m discount cols sample with
      | Ok y =>
          (sample_state sample, y)
          :: expected_fits (fst (fit m (sample_state sample) y))
               discount cols rest
      | Raise _ => []
      end
  end.

(** ** Driving the agent

    The arguments of one [recordStep] call, and a run that records a
    sequence of them (what the play loop does once per decision frame). *)
Record Frame := mkFrame {
  f_observation : Obs;
  f_state : gmap string Z;
  f_reward : num;
  f_nextObservation : Obs;
  f_nextState : gmap string Z;
  f_done : bool
}.

Definition record_frame (f : Frame) : M unit :=
  recordStep (f_observation f) (f_state f) (f_reward f)
             (f_nextObservation f) (f_nextState f) (f_done f).

Definition record_all (fs : list Frame) : M unit := for_each record_frame fs.

(** The tuple [recordStep] stores for a frame when [lastAction] is [a]. *)
Definition step_of (a : Z) (f : Frame) : Step :=
  mkStep _ _ (f_observation f) (f_state f) a (f_reward f)
         (f_nextObservation f) (f_nextState f) (f_done f).

(** An episode as the lifecycle runs it: record the frames, then review. *)
Definition record_then_review (fs : list Frame) : M unit :=
  _ ← record_all fs; reviewFight.

(** [n] training passes in a row over the same prepared data. *)
Fixpoint repeat_passes (n : nat) (data : list (Sample num)) : M unit :=
  match n with
  | O => mret tt
  | S n' => _ ← trainNetwork data; repeat_passes n' data
  end.

Definition self_of (st : Res unit * (Self * World)) : Self := fst (snd st).
Definition world_of (st : Res unit * (Self * World)) : World := snd (snd st).

End Embedding.

(** ** Instances used by the examples *)

(** A three-action approximator over the rationals whose state counts the
    fitting steps performed; its predictions depend on that state. *)
#[global] Instance counting_net : Approximator Q := {|
  Model := Z;
  predict m _ := [inject_Z m; 2%Q; 2%Q];
  fit m _ y := (m + 1, nth 0 y 0%Q)
|}.

(** A stateless approximator over binary64 numbers. *)
#[global] Instance constant_net : Approximator float := {|
  Model := unit;
  predict _ _ := [PrimFloat.one; PrimFloat.two];
  fit m _ _ := (m, PrimFloat.zero)
|}.

Definition example_world {num : Type} {AP : Approximator num}
    (rand : nat -> num) : World num :=
  {| np_rand := rand;
     np_pos := 0;
     py_randbelow := fun i => i;
     py_pos := 0;
     space_pos := 0;
     predict_calls := [];
     fit_calls := [];
     weights_files := ∅;
     log_files := ∅ |}.

(** A freshly constructed agent with the default sizes of the source
    (32 features) and the three actions of [counting_net]; observations
    are irrelevant to the encoder and are kept trivial. *)
Definition example_agent : Self unit Q :=
  DeepQAgent_init 32 3 false (inject_Z 1) None (0 : Z).

Definition example_frame (reward : Q) (done : bool) : Frame (Obs:=unit) (num:=Q) :=
  mkFrame tt example_state reward tt example_state done.

(** Two non-terminal transitions followed by a terminal one. *)
Definition example_frames : list (Frame (Obs:=unit) (num:=Q)) :=
  [example_frame 1 false; example_frame (1 # 2) false; example_frame 3 true].

(** The example agent once something has assigned [lastAction]. *)
Definition recording_agent : Self unit Q := set_lastAction (Some 1) example_agent.

Definition quiet_world : World Q := example_world (fun _ => 0%Q).

(** A Q-learning agent over binary64 numbers with the default epsilon 1. *)
Definition float_agent : Self unit float :=
  DeepQAgent_init 32 2 false (float_of_int 1) None tt.

(** The exploration rate after [n] training passes from a given start. *)
Definition epsilon_after {num : Type} {NU : Number num} {AP : Approximator num}
    (n : nat) (self : Self unit num) (w : World num) : num :=
  epsilon (self_of (repeat_passes n [] (self, w))).

(** ** Descriptions used by the statements *)

(** The segment the encoder emits for a status code: zeros for a code of
    [doneKeys], the one-hot of its index for a key of [stateIndices]; any
    other code makes the dictionary access fail. *)
Definition status_segment (c : Z) : Res (list Z) :=
  if contains doneKeys c then Ok (replicate 9 0)
  else match stateIndices !! c with
       | Some i => Ok (one_hot 9 (Z.to_nat i))
       | None => Raise KeyError
       end.

(** The feature vector of a mapping the encoder accepts. *)
Definition encoded (stateSize : Z) (step : gmap string Z) : list Z :=
  match prepareNetworkInputs stateSize step with
  | Ok v => v
  | Raise _ => []
  end.

Definition encodable (stateSize : Z) (step : gmap string Z) : Prop :=
  is_Ok (prepareNetworkInputs stateSize step) = true.

(** The nine fields the encoder reads, in the order it reads them. *)
Record Telemetry := mkTelemetry {
  t_enemy_health : Z; t_enemy_x : Z; t_enemy_y : Z;
  t_enemy_status : Z; t_enemy_character : Z;
  t_health : Z; t_x : Z; t_y : Z; t_status : Z
}.

Definition has_fields (step : gmap string Z) (t : Telemetry) : Prop :=
  step !! "enemy_health" = Some (t_enemy_health t) /\
  step !! "enemy_x_position" = Some (t_enemy_x t) /\
  step !! "enemy_y_position" = Some (t_enemy_y t) /\
  step !! "enemy_status" = Some (t_enemy_status t) /\
  step !! "enemy_character" = Some (t_enemy_character t) /\
  step !! "health" = Some (t_health t) /\
  step !! "x_position" = Some (t_x t) /\
  step !! "y_position" = Some (t_y t) /\
  step !! "status" = Some (t_status t).

(** The range of a 64-bit signed integer. *)
Definition int64 (z : Z) : Prop := - 2 ^ 63 <= z < 2 ^ 63.

(** The six numeric fields fit 64-bit integers (the status and character
    codes of a valid mapping are small). *)
Definition int64_fields (t : Telemetry) : Prop :=
  int64 (t_enemy_health t) /\ int64 (t_enemy_x t) /\ int64 (t_enemy_y t) /\
  int64 (t_health t) /\ int64 (t_x t) /\ int64 (t_y t).

(** A valid state mapping: every field is present, both status codes are
    keys of [stateIndices], the enemy character is one of the 8 ids. *)
Definition valid_telemetry (step : gmap string Z) (t : Telemetry) : Prop :=
  has_fields step t /\
  is_Some (stateIndices !! t_enemy_status t) /\
  0 <= t_enemy_character t < 8 /\
  is_Some (stateIndices !! t_status t).

Definition status_index (c : Z) : nat := Z.to_nat (default 0 (stateIndices !! c)).

(** The documented composition of the feature vector. *)
Definition layout (t : Telemetry) : list Z :=
  [t_enemy_health t; t_enemy_x t; t_enemy_y t]
  ++ one_hot 9 (status_index (t_enemy_status t))
  ++ one_hot 8 (Z.to_nat (t_enemy_character t))
  ++ [t_health t; t_x t; t_y t]
  ++ one_hot 9 (status_index (t_status t)).

(** A row without NaN. *)
Definition no_nan {num : Type} {NU : Number num} (v : list num) : Prop :=
  Forall (fun c => nisnan c = false) v.


(** The order of binary64 numbers other than NaN, read off their
    specification: a number is ranked by sign class, then exponent, then
    mantissa (both reversed for negative numbers); the zeros share one
    rank. *)
Definition SF_key (f : SpecFloat.spec_float) : Z * Z * Z :=
  match f with
  | SpecFloat.S754_infinity true => (-2, 0, 0)
  | SpecFloat.S754_finite true m e => (-1, - e, - Zpos m)
  | SpecFloat.S754_zero _ => (0, 0, 0)
  | SpecFloat.S754_finite false m e => (1, e, Zpos m)
  | SpecFloat.S754_infinity false => (2, 0, 0)
  | SpecFloat.S754_nan => (3, 0, 0)
  end.

Definition key_lt (a b : Z * Z * Z) : Prop :=
  let '(a1, a2, a3) := a in
  let '(b1, b2, b3) := b in
  a1 < b1 \/ (a1 = b1 /\ (a2 < b2 \/ (a2 = b2 /\ a3 < b3))).

(** [i] is the first position of a largest entry of [v]. *)
Definition first_max {num : Type} {NU : Number num} (v : list num) (i : nat)
  : Prop :=
  exists b, v !! i = Some b /\
    (forall j c, v !! j = Some c -> nltb b c = false) /\
    (forall j c, (j < i)%nat -> v !! j = Some c -> nltb c b = true).

(** The network has one output per action. *)
Definition net_ok {num : Type} {AP : Approximator num} (cols : Z) : Prop :=
  forall (m : Model) (x : list Z), Z.of_nat (length (predict m x)) = cols.

(** The training point built from one stored step. *)
Definition prepared {Obs num : Type} (stateSize : Z) (step : Step Obs num)
  : Sample num :=
  (encoded stateSize (step_state step), step_action step, step_reward step,
   step_done step, encoded stateSize (step_nextState step)).

Definition step_encodable {Obs num : Type} (stateSize : Z)
    (step : Step Obs num) : Prop :=
  encodable stateSize (step_state step) /\
  encodable stateSize (step_nextState step).

Definition frame_encodable {Obs num : Type} (stateSize : Z)
    (f : Frame (Obs:=Obs) (num:=num)) : Prop :=
  encodable stateSize (f_state f) /\ encodable stateSize (f_nextState f).

(** The frames whose transitions are still in the buffer after all of
    [fs] were recorded into an empty one. *)
Definition kept_frames {Obs num : Type}
    (fs : list (Frame (Obs:=Obs) (num:=num))) :=
  drop (length fs - Z.to_nat MAX_DATA_LENGTH) fs.

(** The post-pass update of the exploration rate, as a function. *)
Definition decay_step {num : Type} {NU : Number num} {AP : Approximator num}
    (decay eps : num) : num :=
  if nltb EPSILON_MIN eps then nmul eps decay else eps.

(** [0.999^k], as the repeated product the passes compute. *)
Fixpoint decayed (k : nat) : Q :=
  match k with
  | O => inject_Z 1
  | S k' => (decayed k' * (999 # 1000))%Q
  end.

(** Integer bounds of [10^30 * 0.999^k], rounded down and up at each
    step. *)
Fixpoint decayed_lo (k : nat) : Z :=
  match k with
  | O => 10 ^ 30
  | S k' => decayed_lo k' * 999 / 1000
  end.

Fixpoint decayed_up (k : nat) : Z :=
  match k with
  | O => 10 ^ 30
  | S k' => decayed_up k' * 999 / 1000 + 1
  end.

(** ** [DeepQAgent._huber_loss], in exact arithmetic

    The arguments are tensors of one shape; they are represented by the
    lists of their entries and the numbers by rationals.  [huber_terms]
    is the body applied to one entry: [K.abs], [K.square] and [tf.where]
    act entry by entry. *)
Definition huber_terms (clip_delta y_true y_pred : Q) : Q :=
  let error := (y_true - y_pred)%Q in
  let cond := Qle_bool (Qabs error) clip_delta in
  let squared_loss := ((1 # 2) * (error * error))%Q in
  let quadratic_loss :=
    ((1 # 2) * (clip_delta * clip_delta)
     + clip_delta * (Qabs error - clip_delta))%Q in
  if cond then squared_loss else quadratic_loss.

Definition Qsum (l : list Q) : Q := fold_right Qplus 0%Q l.

(** [K.mean] over all entries (of a non-empty tensor; TensorFlow gives NaN
    on an empty one). *)
Definition Qmean (l : list Q) : Q :=
  (Qsum l / inject_Z (Z.of_nat (length l)))%Q.

Definition _huber_loss (y_true y_pred : list Q) (clip_delta : Q) : Q :=
  Qmean (zip_with (huber_terms clip_delta) y_true y_pred).

(** ** [Agent.getStates]

    [s.split('.')]: the pieces of [s] between dots; never empty. *)
Fixpoint split_dot (s : string) : list string :=
  match s with
  | EmptyString => [EmptyString]
  | String c rest =>
      if Ascii.eqb c "."%char then EmptyString :: split_dot rest
      else match split_dot rest with
           | piece :: pieces => String c piece :: pieces
           | [] => [String c EmptyString]
           end
  end.

(** [l[i]] on a list: a negative index counts from the end, anything
    outside [-len, len) raises. *)
Definition list_getitem {A} (l : list A) (i : Z) : Res A :=
  let n := Z.of_nat (length l) in
  let at_ (k : Z) :=
    match l !! Z.to_nat k with
    | Some x => Ok x
    | None => Raise IndexError
    end in
  if (0 <=? i) && (i <? n) then at_ i
  else if (- n <=? i) && (i <? 0) then at_ (n + i)
  else Raise IndexError.

(** The list comprehension of [getStates]; [states] is the list built so
    far.  The condition is evaluated before the element expression. *)
Fixpoint getStates_loop (files states : list string) : Res (list string) :=
  match files with
  | [] => Ok states
  | file :: rest =>
      ext ← list_getitem (split_dot file) 1;
      if String.eqb ext "state" then
        stem ← list_getitem (split_dot file) 0;
        getStates_loop rest (states ++ [stem])
      else getStates_loop rest states
  end.

(** [getStates()], as a function of the directory listing that
    [os.listdir] returns. *)
Definition getStates (listing : list string) : Res (list string) :=
  getStates_loop listing [].

(** A string without a dot. *)
Fixpoint dot_free (s : string) : bool :=
  match s with
  | EmptyString => true
  | String c rest => negb (Ascii.eqb c "."%char) && dot_free rest
  end.

(** ['.'.join(pieces)] *)
Fixpoint join_dot (pieces : list string) : string :=
  match pieces with
  | [] => EmptyString
  | [piece] => piece
  | piece :: rest => piece +:+ "." +:+ join_dot rest
  end.

(** The name of a file with a stem and an extension. *)
Definition file_name (entry : string * string) : string :=
  fst entry +:+ "." +:+ snd entry.

(** The attributes no training step assigns. *)
Definition same_settings {Obs num : Type} {AP : Approximator num}
    (self self' : Self Obs num) : Prop :=
  name self' = name self /\ memory self' = memory self /\
  lastAction self' = lastAction self /\ stateSize self' = stateSize self /\
  actionSize self' = actionSize self /\ gamma self' = gamma self /\
  epsilonDecay self' = epsilonDecay self /\
  learningRate self' = learningRate self /\
  environment self' = environment self.

(** The keys of the telemetry mapping that the encoder reads. *)
Definition encoder_keys : list string :=
  ["enemy_health"; "enemy_x_position"; "enemy_y_position"; "enemy_status";
   "enemy_character"; "health"; "x_position"; "y_position"; "status"].

(** The status code that [stateIndices] sends to a given index. *)
Definition index_code (i : Z) : Z :=
  nth (Z.to_nat i) [512; 514; 516; 518; 520; 522; 524; 526; 532] 0.

(** ** Concrete inputs of the examples *)

Definition example_telemetry : Telemetry :=
  mkTelemetry 176 300 192 514 3 150 205 192 520.

(** The example mapping with a player status of [doneKeys]. *)
Definition done_state : gmap string Z := <["status" := 528]> example_state.
Definition done_telemetry : Telemetry :=
  mkTelemetry 176 300 192 514 3 150 205 192 528.

(** An environment whose [get_action_meaning] answers with no buttons. *)
Definition example_environment : Environment :=
  {| get_action_meaning := fun _ => Ok [] |}.

(** The example agent after something outside the two sources has
    assigned it an environment. *)
Definition fielded_agent : Self unit Q :=
  set_environment (Some example_environment) example_agent.

(** The same with exploration switched off. *)
Definition greedy_agent : Self unit Q := set_epsilon 0%Q fielded_agent.

(** The telemetry of a frame in which the agent has no control. *)
Definition lockout_state : gmap string Z :=
  <["round_timer" := 39208]> example_state.

(** * Properties *)

(** ** Encoder *)

Lemma getitem_Some `{Countable K} {V} (d : gmap K V) k v :
  d !! k = Some v -> getitem d k = Ok v.
Proof. unfold getitem. intros ->. reflexivity. Qed.

Lemma size_stateIndices : size stateIndices = 9%nat.
Proof. vm_compute. reflexivity. Qed.

Lemma stateIndices_known c i :
  stateIndices !! c = Some i -> contains doneKeys c = false /\ 0 <= i < 9.
Proof.
  intros Hc. apply elem_of_list_to_map_2 in Hc.
  unfold stateIndices_items in Hc.
  repeat (apply elem_of_cons in Hc as [Hc | Hc];
          [inversion Hc; subst; split; [reflexivity | lia] | ]).
  inversion Hc.
Qed.

Lemma setitem_in_range {A} (l : list A) i x :
  0 <= i < Z.of_nat (length l) -> setitem l i x = Ok (<[Z.to_nat i := x]> l).
Proof.
  intros Hi. unfold setitem.
  destruct (Z.leb_spec 0 i); [ | lia].
  destruct (Z.ltb_spec i (Z.of_nat (length l))); [ | lia].
  reflexivity.
Qed.

Lemma length_one_hot n i : length (one_hot n i) = n.
Proof. unfold one_hot. rewrite length_insert, length_replicate. reflexivity. Qed.

Lemma status_segment_length c seg :
  status_segment c = Ok seg -> length seg = 9%nat.
Proof.
  unfold status_segment. destruct (contains doneKeys c).
  - intros [= <-]. reflexivity.
  - destruct (stateIndices !! c); [ | discriminate].
    intros [= <-]. apply length_one_hot.
Qed.

(** The statement on which the encoder's properties rest: with the nine
    fields present and the enemy character among the 8 ids, the encoder
    computes the two status segments, concatenates in the fixed order and
    reshapes. *)
Lemma prepareNetworkInputs_spec stateSize step t :
  has_fields step t ->
  0 <= t_enemy_character t < 8 ->
  prepareNetworkInputs stateSize step =
    (es ← status_segment (t_enemy_status t);
     ps ← status_segment (t_status t);
     reshape_row ([t_enemy_health t; t_enemy_x t; t_enemy_y t] ++ es
                  ++ one_hot 8 (Z.to_nat (t_enemy_character t))
                  ++ [t_health t; t_x t; t_y t] ++ ps) stateSize).
Proof.
  intros (H1 & H2 & H3 & H4 & H5 & H6 & H7 & H8 & H9) Hc.
  unfold prepareNetworkInputs.
  rewrite (getitem_Some _ _ _ H1), (getitem_Some _ _ _ H2),
    (getitem_Some _ _ _ H3), (getitem_Some _ _ _ H4),
    (getitem_Some _ _ _ H5), (getitem_Some _ _ _ H6),
    (getitem_Some _ _ _ H7), (getitem_Some _ _ _ H8),
    (getitem_Some _ _ _ H9).
  rewrite size_stateIndices.
  cbn [mbind Res_bind].
  assert (Hseg : forall c,
    (if negb (contains doneKeys c)
     then i ← getitem stateIndices c; setitem (replicate 9 0) i 1
     else Ok (replicate 9 0)) = status_segment c).
  { intros c. unfold status_segment.
    destruct (contains doneKeys c) eqn:Hd; [reflexivity | ].
    cbn [negb]. unfold getitem.
    destruct (stateIndices !! c) as [i | ] eqn:Hi; [ | reflexivity].
    cbn [mbind Res_bind].
    destruct (stateIndices_known _ _ Hi) as [_ Hr].
    apply setitem_in_range. rewrite length_replicate. lia. }
  rewrite !Hseg.
  destruct (status_segment (t_enemy_status t)) as [es | e]; [ | reflexivity].
  cbn [mbind Res_bind].
  rewrite (setitem_in_range (replicate 8 0) _ 1)
    by (rewrite length_replicate; lia).
  cbn [mbind Res_bind].
  destruct (status_segment (t_status t)) as [ps | e]; [ | reflexivity].
  cbn [mbind Res_bind].
  f_equal. cbn [app]. rewrite <- !app_assoc. reflexivity.
Qed.

Lemma length_layout t : length (layout t) = 32%nat.
Proof.
  unfold layout. rewrite !length_app, !length_one_hot. reflexivity.
Qed.

Lemma status_segment_known c :
  is_Some (stateIndices !! c) ->
  status_segment c = Ok (one_hot 9 (status_index c)).
Proof.
  intros [i Hi]. unfold status_segment, status_index.
  destruct (stateIndices_known _ _ Hi) as [-> _]. rewrite Hi. reflexivity.
Qed.

Lemma reshape_row_positive {A} (v : list A) cols :
  0 < cols ->
  reshape_row v cols =
  if Z.of_nat (length v) =? cols then Ok v else Raise ValueError.
Proof.
  intros Hc. unfold reshape_row.
  destruct (Z.eqb_spec cols (-1)); [lia | ].
  rewrite Z.mul_1_l. reflexivity.
Qed.

(** C6. For every valid state mapping the encoder's output is the fixed
    composition [enemy_health, enemy_x, enemy_y, 9-element enemy-status
    one-hot, 8-element enemy-character one-hot, health, x, y, 9-element
    player-status one-hot], it has 32 elements, and whenever the encoder
    returns a vector its length is the configured [stateSize] (for any
    other positive [stateSize] the final reshape raises). *)
Theorem encoder_output_layout (stateSize : Z) (step : gmap string Z) (t : Telemetry) :
  valid_telemetry step t ->
  0 < stateSize ->
  prepareNetworkInputs stateSize step =
    (if stateSize =? 32 then Ok (layout t) else Raise ValueError) /\
  (forall v, prepareNetworkInputs stateSize step = Ok v ->
     v = layout t /\ Z.of_nat (length v) = stateSize).
Proof.
  intros (Hf & Hes & Hc & Hps) Hpos.
  assert (E : prepareNetworkInputs stateSize step =
              if stateSize =? 32 then Ok (layout t) else Raise ValueError).
  { rewrite (prepareNetworkInputs_spec _ _ _ Hf Hc).
    rewrite (status_segment_known _ Hes), (status_segment_known _ Hps).
    cbn [mbind Res_bind]. fold (layout t).
    rewrite reshape_row_positive by exact Hpos.
    rewrite length_layout.
    change (Z.of_nat 32) with 32. rewrite (Z.eqb_sym 32 stateSize).
    reflexivity. }
  split; [exact E | ].
  intros v Hv. rewrite E in Hv.
  destruct (Z.eqb_spec stateSize 32) as [-> | ]; [ | discriminate].
  injection Hv as <-. split; [reflexivity | ].
  rewrite length_layout. reflexivity.
Qed.

Lemma example_state_fields : has_fields example_state example_telemetry.
Proof. repeat split; vm_compute; reflexivity. Defined.

Lemma encoder_output_layout_witness :
  prepareNetworkInputs 32 example_state =
    Ok [176; 300; 192;  0; 1; 0; 0; 0; 0; 0; 0; 0;  0; 0; 0; 1; 0; 0; 0; 0;
        150; 205; 192;  0; 0; 0; 0; 1; 0; 0; 0; 0].
Proof.
  refine (proj1 (encoder_output_layout 32 example_state example_telemetry _ _)).
  - split; [exact example_state_fields | ].
    split; [exists 1; vm_compute; reflexivity | ].
    split; [simpl; lia | ].
    exists 4; vm_compute; reflexivity.
  - lia.
Defined.

(** C2, counterexample. The status code 534 is none of the nine known
    codes, and the encoder raises [KeyError] on a mapping that carries it;
    likewise for [enemy_status], and an [enemy_character] of 8 raises
    [IndexError]. *)
Lemma encoder_unknown_status_raises :
  stateIndices !! 534 = None /\
  prepareNetworkInputs 32 (<["status" := 534]> example_state) = Raise KeyError /\
  prepareNetworkInputs 32 (<["enemy_status" := 534]> example_state) = Raise KeyError /\
  prepareNetworkInputs 32 (<["enemy_character" := 8]> example_state) = Raise IndexError.
Proof. repeat split; vm_compute; reflexivity. Qed.

(** C2, amended. With the nine fields present and the enemy character among
    the 8 ids, a [status] (or [enemy_status]) code that is one of the eight
    [doneKeys] yields an all-zero segment for that status, and the encoder
    returns normally when the other status code is encodable; a code that
    is neither in [doneKeys] nor a key of [stateIndices] raises
    [KeyError]. *)
Theorem encoder_done_status_zero (step : gmap string Z) (t : Telemetry) :
  has_fields step t ->
  0 <= t_enemy_character t < 8 ->
  (contains doneKeys (t_status t) = true ->
   is_Ok (status_segment (t_enemy_status t)) = true ->
   exists v, prepareNetworkInputs 32 step = Ok v /\
             take 9 (drop 23 v) = replicate 9 0) /\
  (contains doneKeys (t_enemy_status t) = true ->
   is_Ok (status_segment (t_status t)) = true ->
   exists v, prepareNetworkInputs 32 step = Ok v /\
             take 9 (drop 3 v) = replicate 9 0) /\
  (contains doneKeys (t_status t) = false ->
   stateIndices !! t_status t = None ->
   is_Ok (status_segment (t_enemy_status t)) = true ->
   forall stateSize, prepareNetworkInputs stateSize step = Raise KeyError) /\
  (contains doneKeys (t_enemy_status t) = false ->
   stateIndices !! t_enemy_status t = None ->
   forall stateSize, prepareNetworkInputs stateSize step = Raise KeyError).
Proof.
  intros Hf Hc.
  pose proof (fun n => prepareNetworkInputs_spec n _ _ Hf Hc) as E.
  repeat split.
  - intros Hd Hok. rewrite E.
    destruct (status_segment (t_enemy_status t)) as [es | ] eqn:Hes;
      [ | discriminate].
    pose proof (status_segment_length _ _ Hes) as Hl.
    assert (Hz : status_segment (t_status t) = Ok (replicate 9 0))
      by (unfold status_segment; rewrite Hd; reflexivity).
    rewrite Hz. cbn [mbind Res_bind].
    eexists. split.
    + unfold reshape_row. rewrite !length_app, length_one_hot, Hl. reflexivity.
    + rewrite !app_assoc.
      rewrite drop_app_length'
        by (rewrite !length_app, length_one_hot, Hl; reflexivity).
      reflexivity.
  - intros Hd Hok. rewrite E.
    assert (Hz : status_segment (t_enemy_status t) = Ok (replicate 9 0))
      by (unfold status_segment; rewrite Hd; reflexivity).
    rewrite Hz. cbn [mbind Res_bind].
    destruct (status_segment (t_status t)) as [ps | ] eqn:Hps;
      [ | discriminate].
    pose proof (status_segment_length _ _ Hps) as Hl.
    cbn [mbind Res_bind].
    eexists. split.
    + unfold reshape_row. rewrite !length_app, length_one_hot, Hl. reflexivity.
    + reflexivity.
  - intros Hd Hn Hok stateSize. rewrite E.
    destruct (status_segment (t_enemy_status t)); [ | discriminate].
    unfold status_segment. rewrite Hd, Hn. reflexivity.
  - intros Hd Hn stateSize. rewrite E.
    assert (Hz : status_segment (t_enemy_status t) = Raise KeyError)
      by (unfold status_segment; rewrite Hd, Hn; reflexivity).
    rewrite Hz. reflexivity.
Qed.

Lemma encoder_done_status_zero_witness :
  exists v, prepareNetworkInputs 32 done_state = Ok v /\
            take 9 (drop 23 v) = replicate 9 0.
Proof.
  refine (proj1 (encoder_done_status_zero done_state done_telemetry _ _) _ _).
  - repeat split; vm_compute; reflexivity.
  - simpl; lia.
  - reflexivity.
  - vm_compute; reflexivity.
Defined.

(** ** Experience buffer *)

Lemma deque_append_length {A} cap (d : list A) x :
  0 < cap -> Z.of_nat (length d) <= cap ->
  Z.of_nat (length (deque_append cap d x)) <= cap.
Proof.
  intros Hc Hd. unfold deque_append.
  destruct (Z.eqb_spec cap 0); [lia | ].
  destruct (Z.eqb_spec (Z.of_nat (length d)) cap) as [Hfull | Hnot].
  - destruct d as [ | a d]; [simpl in Hfull; lia | ].
    simpl in *. rewrite length_app. simpl. lia.
  - rewrite length_app. simpl. lia.
Qed.

Lemma deque_append_drop {A} cap (d : list A) x :
  0 < cap -> Z.of_nat (length d) <= cap ->
  deque_append cap d x =
  drop (length (d ++ [x]) - Z.to_nat cap) (d ++ [x]).
Proof.
  intros Hc Hd. unfold deque_append.
  destruct (Z.eqb_spec cap 0); [lia | ].
  destruct (Z.eqb_spec (Z.of_nat (length d)) cap) as [Hfull | Hnot].
  - destruct d as [ | a d]; [simpl in Hfull; lia | ].
    rewrite length_app.
    change (length (a :: d)) with (S (length d)) in *.
    change (length [x]) with 1%nat.
    replace (S (length d) + 1 - Z.to_nat cap)%nat with 1%nat by lia.
    reflexivity.
  - rewrite length_app. change (length [x]) with 1%nat.
    replace (length d + 1 - Z.to_nat cap)%nat with 0%nat by lia.
    reflexivity.
Qed.

(** A run of appends keeps the most recent [cap] items, in order. *)
Lemma deque_appends {A} cap (xs d : list A) :
  0 < cap -> Z.of_nat (length d) <= cap ->
  fold_left (deque_append cap) xs d =
  drop (length (d ++ xs) - Z.to_nat cap) (d ++ xs).
Proof.
  intros Hc. revert d. induction xs as [ | x xs IH]; intros d Hd.
  - simpl. rewrite app_nil_r.
    replace (length d - Z.to_nat cap)%nat with 0%nat by lia. reflexivity.
  - simpl fold_left.
    rewrite IH by (apply deque_append_length; assumption).
    rewrite (deque_append_drop cap d x Hc Hd).
    set (n := (length (d ++ [x]) - Z.to_nat cap)%nat).
    assert (Hn : (n <= length (d ++ [x]))%nat) by (subst n; lia).
    rewrite <- drop_app_le by exact Hn.
    rewrite drop_drop. rewrite <- app_assoc. simpl.
    f_equal. rewrite !length_app, length_drop.
    subst n. rewrite !length_app in *. change (length [x]) with 1%nat in *.
    change (length (x :: xs)) with (S (length xs)). lia.
Qed.

Section BufferProperties.
Context {Obs num : Type} {NU : Number num} {AP : Approximator num}.
Implicit Types (self : Self Obs num) (w : World num) (f : Frame (Obs:=Obs) (num:=num)).

Lemma set_memory_id self : set_memory (memory self) self = self.
Proof. destruct self; reflexivity. Qed.

Lemma set_memory_twice self m1 m2 :
  set_memory m2 (set_memory m1 self) = set_memory m2 self.
Proof. reflexivity. Qed.

(** What one [recordStep] does, according to [lastAction]. *)
Lemma recordStep_run self w o s r o' s' dn :
  recordStep o s r o' s' dn (self, w) =
  match lastAction self with
  | Some a =>
      (Ok tt,
       (set_memory (deque_append MAX_DATA_LENGTH (memory self)
                      (mkStep _ _ o s a r o' s' dn)) self, w))
  | None => (Raise AttributeError, (self, w))
  end.
Proof.
  unfold recordStep, getattr, lift, get_self, modify_self, mbind, M_bind.
  cbn [fst snd].
  destruct (lastAction self); reflexivity.
Qed.

Lemma record_all_run fs : forall self w a,
  lastAction self = Some a ->
  record_all fs (self, w) =
  (Ok tt,
   (set_memory
      (fold_left (deque_append MAX_DATA_LENGTH) (map (step_of a) fs) (memory self))
      self, w)).
Proof.
  induction fs as [ | f fs IH]; intros self w a Ha.
  - simpl. rewrite set_memory_id. reflexivity.
  - unfold record_all in *. cbn [for_each]. unfold mbind at 1, M_bind at 1.
    unfold record_frame at 1. rewrite recordStep_run, Ha.
    rewrite (IH _ _ a) by exact Ha.
    reflexivity.
Qed.

(** C4. Recording any sequence of transitions into a buffer that respects
    the capacity leaves exactly the most recently appended
    [MAX_DATA_LENGTH] = 50000 transitions, in insertion order; the size
    never exceeds the capacity, and an append at capacity drops exactly the
    oldest entry. *)
Theorem experience_buffer_fifo self w a fs :
  lastAction self = Some a ->
  Z.of_nat (length (memory self)) <= MAX_DATA_LENGTH ->
  let appended := memory self ++ map (step_of a) fs in
  let kept := drop (length appended - Z.to_nat MAX_DATA_LENGTH) appended in
  record_all fs (self, w) = (Ok tt, (set_memory kept self, w)) /\
  Z.of_nat (length kept) <= MAX_DATA_LENGTH /\
  (forall f, Z.of_nat (length (memory self)) = MAX_DATA_LENGTH ->
     record_frame f (self, w) =
     (Ok tt, (set_memory (tail (memory self) ++ [step_of a f]) self, w))).
Proof.
  intros Ha Hcap appended kept.
  assert (Hpos : 0 < MAX_DATA_LENGTH) by reflexivity.
  split; [ | split].
  - rewrite (record_all_run fs self w a Ha).
    rewrite deque_appends by assumption.
    reflexivity.
  - subst kept. rewrite length_drop. lia.
  - intros f Hfull. unfold record_frame. rewrite recordStep_run, Ha.
    unfold deque_append.
    rewrite Hfull. reflexivity.
Qed.

End BufferProperties.

(** Appending 50001 transitions to an empty buffer drops exactly the first
    one. *)
Lemma buffer_overflow_by_one {A} (xs : list A) :
  Z.of_nat (length xs) = MAX_DATA_LENGTH + 1 ->
  fold_left (deque_append MAX_DATA_LENGTH) xs [] = tail xs.
Proof.
  intros Hl. rewrite deque_appends; [ | reflexivity | simpl; unfold MAX_DATA_LENGTH; lia].
  simpl app.
  replace (length xs - Z.to_nat MAX_DATA_LENGTH)%nat with 1%nat
    by (unfold MAX_DATA_LENGTH in *; lia).
  destruct xs; reflexivity.
Qed.

Lemma experience_buffer_fifo_witness :
  record_all (firstn 2 example_frames)
    (set_lastAction (Some 1) example_agent, example_world (fun _ => 0%Q)) =
  (Ok tt,
   (set_memory [step_of 1 (example_frame 1 false);
                step_of 1 (example_frame (1 # 2) false)]
      (set_lastAction (Some 1) example_agent),
    example_world (fun _ => 0%Q))).
Proof.
  refine (proj1 (experience_buffer_fifo
                   (set_lastAction (Some 1) example_agent)
                   (example_world (fun _ => 0%Q)) 1
                   (firstn 2 example_frames) _ _)).
  - reflexivity.
  - vm_compute. discriminate.
Defined.

(** ** Move selection and recording *)

Ltac run_monad :=
  unfold mbind, M_bind, mret, M_ret, lift, getattr,
    get_self, get_world, modify_self, modify_world;
  cbn [fst snd].

Ltac case_branches :=
  repeat (match goal with
          | |- context [match ?x with _ => _ end] =>
              lazymatch x with
              | context [match _ with _ => _ end] => fail
              | _ => destruct x eqn:?
              end
          end; cbn [fst snd negb Res_bind]).

Section MoveProperties.
Context {Obs num : Type} {NU : Number num} {AP : Approximator num}.
Implicit Types (self : Self Obs num) (w : World num).

(** [class Agent] binds no name [NO_MOVE]. *)
Lemma Agent_has_no_NO_MOVE :
  class_getattr Agent_class "NO_MOVE" = Raise AttributeError.
Proof. reflexivity. Qed.

(** The branches of [getMove], spelled out. *)
Lemma getMove_run (obs : Obs) info self w :
  getMove obs info (self, w) =
  match environment self with
  | None => (Raise AttributeError, (self, w))
  | Some env =>
      match get_action_meaning env 0 with
      | Raise e => (Raise e, (self, w))
      | Ok _ =>
          match getitem info "round_timer" with
          | Raise e => (Raise e, (self, w))
          | Ok t =>
              if t =? 39208 then (Raise AttributeError, (self, w))
              else
                let w1 := set_np_pos (S (np_pos w)) w in
                if nleb (np_rand w (np_pos w)) (epsilon self)
                then (Raise TypeError, (self, w1))
                else match prepareNetworkInputs (stateSize self) info with
                     | Raise e => (Raise e, (self, w1))
                     | Ok x =>
                         (i ← argmax (predict (model self) x); Ok (VInt i),
                          (self, set_predict_calls (predict_calls w1 ++ [x]) w1))
                     end
          end
      end
  end.
Proof.
  unfold getMove, isActionableState, getRandomMove, model_predict.
  rewrite Agent_has_no_NO_MOVE. run_monad. unfold lift.
  destruct (environment self) as [env | ]; cbn [fst snd]; [ | reflexivity].
  destruct (get_action_meaning env 0); cbn [fst snd]; [ | reflexivity].
  destruct (getitem info "round_timer") as [t | ]; cbn [fst snd]; [ | reflexivity].
  destruct (t =? 39208); cbn [negb fst snd]; [reflexivity | ].
  destruct (nleb (np_rand w (np_pos w)) (epsilon self)); cbn [fst snd];
    [reflexivity | ].
  destruct (prepareNetworkInputs (stateSize self) info); cbn [fst snd];
    [ | reflexivity].
  destruct (argmax (predict (model self) a0)); reflexivity.
Qed.

(** [getMove] of the Q-learning agent assigns no attribute at all. *)
Lemma getMove_keeps_self obs info self w :
  fst (snd (getMove obs info (self, w))) = self.
Proof.
  rewrite getMove_run. case_branches; reflexivity.
Qed.

(** The base class's [getMove] assigns the sampled move to [lastAction]. *)
Lemma Agent_getMove_sets_lastAction sp (obs : Obs) info self w :
  lastAction (fst (snd (Agent_getMove sp obs info (self, w)))) =
  Some (sample_outcome sp (space_pos w)).
Proof. reflexivity. Qed.

(** C9. [recordStep] stores the value of [lastAction] at the time of the
    call as the action of the appended transition, and fails with
    [AttributeError] while [lastAction] is unset.  The Q-learning agent's
    [getMove] leaves the agent's attributes untouched, so what is recorded
    after it is the earlier [lastAction], whatever move was returned; a
    freshly constructed Q-learning agent has no [lastAction] and its first
    [recordStep] fails.  (The base class's [getMove] does assign it.) *)
Theorem recordStep_uses_lastAction :
  (forall self w (o : Obs) s r o' s' dn,
     recordStep o s r o' s' dn (self, w) =
     match lastAction self with
     | Some a =>
         (Ok tt,
          (set_memory (deque_append MAX_DATA_LENGTH (memory self)
                         (mkStep _ _ o s a r o' s' dn)) self, w))
     | None => (Raise AttributeError, (self, w))
     end) /\
  (forall obs info self w (o : Obs) s r o' s' dn,
     let after := snd (getMove obs info (self, w)) in
     fst after = self /\
     self_of (recordStep o s r o' s' dn after) =
     self_of (recordStep o s r o' s' dn (self, w))) /\
  (forall stateSize actionSize load eps nm net w (o : Obs) s r o' s' dn,
     let fresh := DeepQAgent_init stateSize actionSize load eps nm net in
     lastAction fresh = None /\
     recordStep o s r o' s' dn (fresh, w) = (Raise AttributeError, (fresh, w))) /\
  (forall sp (obs : Obs) info self w,
     lastAction (fst (snd (Agent_getMove sp obs info (self, w)))) =
     Some (sample_outcome sp (space_pos w))).
Proof.
  split; [ | split; [ | split]].
  - intros. apply recordStep_run.
  - intros obs info self w o s r o' s' dn after.
    pose proof (getMove_keeps_self obs info self w) as Hk.
    split; [exact Hk | ].
    subst after. destruct (getMove obs info (self, w)) as [res [self' w']].
    cbn [fst snd] in *. subst self'.
    rewrite !recordStep_run. unfold self_of.
    destruct (lastAction self); reflexivity.
  - intros. split; [reflexivity | ].
    rewrite recordStep_run. reflexivity.
  - intros. apply Agent_getMove_sets_lastAction.
Qed.

End MoveProperties.

(** ** Arg-max *)

Lemma Qltb_true (x y : Q) : Qltb x y = true <-> (x < y)%Q.
Proof.
  unfold Qltb. rewrite negb_true_iff.
  destruct (Qle_bool y x) eqn:E.
  - apply Qle_bool_iff in E. split; [discriminate | ].
    intros Hlt. exfalso. exact (Qlt_not_le _ _ Hlt E).
  - split; [ | reflexivity]. intros _.
    apply Qnot_le_lt. intros Hle. apply Qle_bool_iff in Hle. congruence.
Qed.

Lemma Qltb_false (x y : Q) : Qltb x y = false <-> (y <= x)%Q.
Proof.
  unfold Qltb. rewrite negb_false_iff. apply Qle_bool_iff.
Qed.

#[global] Instance Q_NumberOrder : NumberOrder Q.
Proof.
  split; cbn [nltb Q_Number].
  - intros a b Hab. apply Qltb_true in Hab. apply Qltb_false.
    apply Qlt_le_weak. exact Hab.
  - intros x y z _ Hxy Hxz. apply Qltb_false in Hxy. apply Qltb_true in Hxz.
    apply Qltb_true. exact (Qle_lt_trans _ _ _ Hxy Hxz).
Qed.

Lemma no_nan_Q (v : list Q) : no_nan v.
Proof. apply Forall_forall. intros c _. reflexivity. Qed.

(** *** The order of binary64 numbers *)

Lemma SFltb_key (x y : SpecFloat.spec_float) :
  x <> SpecFloat.S754_nan -> y <> SpecFloat.S754_nan ->
  (SpecFloat.SFltb x y = true <-> key_lt (SF_key x) (SF_key y)).
Proof.
  intros Hx Hy.
  destruct x as [sx | sx | | sx mx ex]; [ | | congruence | ];
    (destruct y as [sy | sy | | sy my ey]; [ | | congruence | ]);
    unfold SpecFloat.SFltb, SpecFloat.SFcompare, SF_key, key_lt;
    repeat match goal with s : bool |- _ => destruct s end;
    try (split; intros H; first [reflexivity | discriminate H | lia]).
  - change (Pos.compare_cont Eq mx my) with (Pos.compare mx my).
    destruct (Z.compare_spec ex ey); [destruct (Pos.compare_spec mx my) | | ];
      cbn [CompOpp];
      split; intros H'; first [reflexivity | discriminate H' | lia].
  - change (Pos.compare_cont Eq mx my) with (Pos.compare mx my).
    destruct (Z.compare_spec ex ey); [destruct (Pos.compare_spec mx my) | | ];
      split; intros H'; first [reflexivity | discriminate H' | lia].
Qed.

Lemma SFltb_not_nan (x y : SpecFloat.spec_float) :
  SpecFloat.SFltb x y = true ->
  x <> SpecFloat.S754_nan /\ y <> SpecFloat.S754_nan.
Proof.
  destruct x, y; cbn; intros H; try discriminate H; split; discriminate.
Qed.

Lemma is_nan_false (x : float) :
  PrimFloat.is_nan x = false -> FloatOps.Prim2SF x <> SpecFloat.S754_nan.
Proof.
  unfold PrimFloat.is_nan. rewrite FloatAxioms.eqb_spec.
  intros H E. rewrite E in H. discriminate H.
Qed.

(** Binary64 comparison satisfies the two facts, NaN included. *)
#[global] Instance float_NumberOrder : NumberOrder float.
Proof.
  split; cbn [nltb nisnan float_Number].
  - intros a b. rewrite !FloatAxioms.ltb_spec. intros H.
    destruct (SFltb_not_nan _ _ H) as [Ha Hb].
    apply (SFltb_key _ _ Ha Hb) in H.
    destruct (SpecFloat.SFltb (FloatOps.Prim2SF b) (FloatOps.Prim2SF a)) eqn:E;
      [ | reflexivity].
    apply (SFltb_key _ _ Hb Ha) in E.
    destruct (SF_key (FloatOps.Prim2SF a)) as [[a1 a2] a3].
    destruct (SF_key (FloatOps.Prim2SF b)) as [[b1 b2] b3].
    unfold key_lt in *. lia.
  - intros x y z. rewrite !FloatAxioms.ltb_spec. intros Hy Hxy Hxz.
    apply is_nan_false in Hy.
    destruct (SFltb_not_nan _ _ Hxz) as [Hx Hz].
    apply (SFltb_key _ _ Hx Hz) in Hxz.
    apply (SFltb_key _ _ Hy Hz).
    assert (Hn : ~ key_lt (SF_key (FloatOps.Prim2SF x)) (SF_key (FloatOps.Prim2SF y))).
    { intros H. apply (SFltb_key _ _ Hx Hy) in H. congruence. }
    destruct (SF_key (FloatOps.Prim2SF x)) as [[x1 x2] x3].
    destruct (SF_key (FloatOps.Prim2SF y)) as [[y1 y2] y3].
    destruct (SF_key (FloatOps.Prim2SF z)) as [[z1 z2] z3].
    unfold key_lt in *. lia.
Qed.

Section ArgMax.
Context {num : Type} {NU : Number num} {NO : NumberOrder num}.

Lemma nltb_irrefl (a : num) : nltb a a = false.
Proof.
  destruct (nltb a a) eqn:E; [ | reflexivity].
  rewrite (nltb_asym _ _ E) in E. discriminate.
Qed.

Lemma argmax_from_first_max (v : list num) : forall (p : list num) best besti,
  no_nan p -> no_nan v ->
  p !! besti = Some best ->
  (forall j c, p !! j = Some c -> nltb best c = false) ->
  (forall j c, (j < besti)%nat -> p !! j = Some c -> nltb c best = true) ->
  exists i,
    argmax_from best (Z.of_nat besti) (Z.of_nat (length p)) v = Z.of_nat i /\
    first_max (p ++ v) i.
Proof.
  induction v as [ | x v IH]; intros p best besti Hp Hv Hb Hmax Hfirst.
  - exists besti. split; [reflexivity | ].
    rewrite app_nil_r. exists best. auto.
  - cbn [argmax_from].
    assert (Hnb : nisnan best = false)
      by exact (proj1 (Forall_lookup _ _) Hp besti best Hb).
    pose proof (Forall_inv Hv) as Hnx. cbn beta in Hnx.
    pose proof (Forall_inv_tail Hv) as Hv'.
    rewrite Hnb, Hnx, orb_false_r.
    assert (Hp' : no_nan (p ++ [x]))
      by (apply Forall_app; split; [exact Hp | repeat constructor; exact Hnx]).
    replace (Z.of_nat (length p) + 1) with (Z.of_nat (length (p ++ [x])))
      by (rewrite length_app; simpl; lia).
    replace (p ++ x :: v) with ((p ++ [x]) ++ v)
      by (rewrite <- app_assoc; reflexivity).
    assert (Hbelow : forall j c, p !! j = Some c ->
              nltb best x = true -> nltb c x = true).
    { intros j c Hj Hlt.
      exact (nltb_le_lt best c x (proj1 (Forall_lookup _ _) Hp j c Hj)
               (Hmax j c Hj) Hlt). }
    destruct (nltb best x) eqn:Hlt.
    + apply IH; [exact Hp' | exact Hv' | | | ].
      * rewrite lookup_app_r by lia. rewrite Nat.sub_diag. reflexivity.
      * intros j c Hj.
        destruct (lookup_app_Some p [x] j c) as [Hcases _].
        destruct (Hcases Hj) as [Hpj | [_ Hx]].
        -- apply nltb_asym. eapply Hbelow; eauto.
        -- destruct (j - length p)%nat; [ | discriminate].
           injection Hx as <-. apply nltb_irrefl.
      * intros j c Hjl Hj. rewrite lookup_app_l in Hj by exact Hjl.
        eapply Hbelow; eauto.
    + apply IH; [exact Hp' | exact Hv' | | | ].
      * rewrite lookup_app_l by (apply lookup_lt_Some in Hb; exact Hb).
        exact Hb.
      * intros j c Hj.
        destruct (lookup_app_Some p [x] j c) as [Hcases _].
        destruct (Hcases Hj) as [Hpj | [_ Hx]].
        -- eapply Hmax; eauto.
        -- destruct (j - length p)%nat; [ | discriminate].
           injection Hx as <-. exact Hlt.
      * intros j c Hjl Hj.
        rewrite lookup_app_l in Hj
          by (apply lookup_lt_Some in Hb; lia).
        eapply Hfirst; eauto.
Qed.

(** On a row without NaN, [numpy.argmax] returns the first position of a
    largest entry. *)
Lemma argmax_first_max (v : list num) (i : Z) :
  no_nan v ->
  argmax v = Ok i -> 0 <= i /\ first_max v (Z.to_nat i).
Proof.
  destruct v as [ | x v]; [discriminate | ].
  unfold argmax. intros Hv [= <-].
  destruct (argmax_from_first_max v [x] x 0%nat) as (i & Hi & Hfm).
  - repeat constructor. exact (Forall_inv Hv).
  - exact (Forall_inv_tail Hv).
  - reflexivity.
  - intros [ | j] c Hj; [ | discriminate].
    injection Hj as <-. apply nltb_irrefl.
  - intros j c Hj. lia.
  - change (Z.of_nat 0) with 0 in Hi. change (Z.of_nat (length [x])) with 1 in Hi.
    rewrite Hi. split; [lia | ]. rewrite Nat2Z.id. exact Hfm.
Qed.

(** *** The largest entry *)


Lemma fold_maximum_nan (v : list num) : forall a,
  nisnan a = true -> fold_left np_maximum v a = a.
Proof.
  induction v as [ | y v IH]; intros a Ha; [reflexivity | ].
  cbn [fold_left]. unfold np_maximum at 2. rewrite Ha. apply IH. exact Ha.
Qed.




End ArgMax.

Section SelectionProperties.
Context {Obs num : Type} {NU : Number num} {AP : Approximator num}.
Implicit Types (self : Self Obs num) (w : World num).

(** C8. On the lockout value of [round_timer] (39208), [getMove] never
    returns a move: it raises, and leaves the agent and the world,
    including the generator position and the log of [predict] calls, as
    they were.  The exception is [AttributeError], both on an agent without
    an [environment] attribute ([isActionableState] reads it) and on one
    whose environment answers, where the lockout branch is reached and
    evaluates [Agent.NO_MOVE], a name that [class Agent] does not bind. *)
Theorem lockout_raises_AttributeError (obs : Obs) (info : gmap string Z) self w :
  info !! "round_timer" = Some 39208 ->
  let after := getMove obs info (self, w) in
  (exists e, fst after = Raise e) /\
  snd after = (self, w) /\
  (environment self = None -> fst after = Raise AttributeError) /\
  (forall env m,
     environment self = Some env -> get_action_meaning env 0 = Ok m ->
     fst after = Raise AttributeError).
Proof.
  intros Ht. cbn zeta. rewrite getMove_run, (getitem_Some _ _ _ Ht).
  change (39208 =? 39208) with true. cbn match.
  destruct (environment self) as [env | ].
  - destruct (get_action_meaning env 0) as [m | e] eqn:Hg; cbn [fst snd].
    + split; [eexists; reflexivity | ]. split; [reflexivity | ].
      split; [discriminate | reflexivity].
    + split; [eexists; reflexivity | ]. split; [reflexivity | ].
      split; [discriminate | ].
      intros env' m [= <-] Hm. congruence.
  - cbn [fst snd]. split; [eexists; reflexivity | ]. split; [reflexivity | ].
    split; [reflexivity | discriminate].
Qed.

(** C7, amended. On an agent that holds an environment whose
    [get_action_meaning] answers, in an actionable state, every call of
    [getMove] whose random draw is not [<=] epsilon returns the same
    result for the same agent and telemetry, whatever the generators hold:
    the arg-max of the network's prediction on the encoded telemetry,
    which (for a prediction without NaN) is the first position of a largest
    action-value.  With epsilon = 0 these are the calls whose draw is
    strictly positive. *)
Theorem greedy_move_deterministic {NO : NumberOrder num}
    (obs : Obs) (info : gmap string Z) (t : Z) env m self w1 w2 :
  environment self = Some env ->
  get_action_meaning env 0 = Ok m ->
  info !! "round_timer" = Some t ->
  t <> 39208 ->
  nleb (np_rand w1 (np_pos w1)) (epsilon self) = false ->
  nleb (np_rand w2 (np_pos w2)) (epsilon self) = false ->
  let greedy :=
    x ← prepareNetworkInputs (stateSize self) info;
    i ← argmax (predict (model self) x);
    Ok (VInt i) in
  fst (getMove obs info (self, w1)) = greedy /\
  fst (getMove obs info (self, w2)) = greedy /\
  (forall x i,
     prepareNetworkInputs (stateSize self) info = Ok x ->
     no_nan (predict (model self) x) ->
     greedy = Ok (VInt i) ->
     0 <= i /\ first_max (predict (model self) x) (Z.to_nat i)).
Proof.
  intros Henv Hm Ht Hne Hu1 Hu2 greedy.
  assert (Hrun : forall w, nleb (np_rand w (np_pos w)) (epsilon self) = false ->
            fst (getMove obs info (self, w)) = greedy).
  { intros w Hu. rewrite getMove_run, Henv, Hm, (getitem_Some _ _ _ Ht).
    destruct (Z.eqb_spec t 39208); [contradiction | ].
    cbn zeta. rewrite Hu. subst greedy.
    destruct (prepareNetworkInputs (stateSize self) info); reflexivity. }
  split; [apply Hrun; exact Hu1 | ].
  split; [apply Hrun; exact Hu2 | ].
  intros x i Hx Hnan Hg. subst greedy. rewrite Hx in Hg. cbn [mbind Res_bind] in Hg.
  destruct (argmax (predict (model self) x)) as [j | ] eqn:Hj; [ | discriminate].
  cbn [mbind Res_bind] in Hg. injection Hg as ->.
  apply argmax_first_max; assumption.
Qed.

End SelectionProperties.

Lemma lockout_raises_AttributeError_witness :
  fst (getMove tt lockout_state
         (example_agent, example_world (fun _ => (1 # 2)%Q))) =
    Raise AttributeError /\
  fst (getMove tt lockout_state
         (fielded_agent, example_world (fun _ => (1 # 2)%Q))) =
    Raise AttributeError.
Proof.
  split.
  - refine (proj1 (proj2 (proj2
              (lockout_raises_AttributeError tt lockout_state example_agent
                 (example_world (fun _ => (1 # 2)%Q)) _))) _).
    + vm_compute. reflexivity.
    + reflexivity.
  - refine (proj2 (proj2 (proj2
              (lockout_raises_AttributeError tt lockout_state fielded_agent
                 (example_world (fun _ => (1 # 2)%Q)) _)))
              example_environment [] _ _).
    + vm_compute. reflexivity.
    + reflexivity.
    + reflexivity.
Defined.

(** C7, counterexample. With epsilon = 0, one fixed approximator and
    telemetry, and an environment attached, a call whose draw is 1/2
    returns the arg-max (index 1, the first of the two tied largest values
    of [0; 2; 2]), while a call whose draw is exactly 0 satisfies
    [draw <= epsilon] and takes the exploration branch, where
    [getRandomMove] is called without its argument. *)
Lemma greedy_fails_on_zero_draw :
  epsilon greedy_agent = 0%Q /\
  predict (model greedy_agent) [] = [0%Q; 2%Q; 2%Q] /\
  fst (getMove tt example_state
         (greedy_agent, example_world (fun _ => (1 # 2)%Q))) = Ok (VInt 1) /\
  fst (getMove tt example_state
         (greedy_agent, example_world (fun _ => 0%Q))) = Raise TypeError.
Proof. repeat split; vm_compute; reflexivity. Qed.

Lemma greedy_move_deterministic_witness :
  fst (getMove tt example_state
         (greedy_agent, example_world (fun _ => (1 # 2)%Q))) = Ok (VInt 1) /\
  fst (getMove tt example_state
         (greedy_agent, example_world (fun _ => (1 # 3)%Q))) = Ok (VInt 1).
Proof.
  destruct (greedy_move_deterministic tt example_state 9000
              example_environment [] greedy_agent
              (example_world (fun _ => (1 # 2)%Q))
              (example_world (fun _ => (1 # 3)%Q))) as (H1 & H2 & _).
  - reflexivity.
  - reflexivity.
  - vm_compute. reflexivity.
  - discriminate.
  - vm_compute. reflexivity.
  - vm_compute. reflexivity.
  - split; [exact H1 | exact H2].
Defined.

(** ** Training pass *)

Section TrainingProperties.
Context {Obs num : Type} {NU : Number num} {AP : Approximator num}.
Implicit Types (self : Self Obs num) (w : World num).

(** One iteration of the training loop, spelled out. *)
Lemma train_step_run state action reward done next_state self w :
  train_step (state, action, reward, done, next_state) (self, w) =
  let w1 := set_predict_calls (predict_calls w ++ [state]) w in
  let w2 := if done then w1
            else set_predict_calls (predict_calls w1 ++ [next_state]) w1 in
  match td_target (model self) (gamma self)
          (state, action, reward, done, next_state) with
  | Raise e => (Raise e, (self, w2))
  | Ok tgt =>
      match setitem (predict (model self) state) action tgt with
      | Raise e => (Raise e, (self, w2))
      | Ok y =>
          match reshape_row y (actionSize self) with
          | Raise e => (Raise e, (self, w2))
          | Ok y' =>
              (Ok tt,
               (set_lossHistory
                  (lossHistory self ++ [snd (fit (model self) state y')])
                  (set_model (fst (fit (model self) state y')) self),
                set_fit_calls (fit_calls w2 ++ [(state, y')]) w2))
          end
      end
  end.
Proof.
  unfold train_step, model_predict, model_fit, losses_append, td_target.
  run_monad.
  destruct done; cbn [negb fst snd Res_bind];
    case_branches; reflexivity.
Qed.

Lemma amax_nonempty (v : list num) :
  v <> [] -> exists best, amax v = Ok best.
Proof. destruct v; [congruence | ]. intros _. eexists. reflexivity. Qed.


End TrainingProperties.

(** ** [random.sample] yields a permutation *)

Lemma insert_swap_out {A} (l : list A) j x y :
  l !! j = Some x -> x :: <[j := y]> l ≡ₚ l ++ [y].
Proof.
  intros Hj.
  rewrite insert_take_drop by (apply lookup_lt_Some in Hj; exact Hj).
  rewrite <- (take_drop_middle l j x Hj) at 3.
  rewrite <- app_assoc. cbn [app].
  rewrite <- !Permutation_middle.
  apply perm_skip.
  rewrite app_nil_r. reflexivity.
Qed.

Lemma sample_loop_perm {A} (draw : nat -> nat) (k : nat) :
  forall (pos : nat) (pool : list A),
    (k <= length pool)%nat ->
    sample_loop draw pos pool k k ≡ₚ take k pool.
Proof.
  induction k as [ | k IH]; intros pos pool Hk; [reflexivity | ].
  cbn [sample_loop].
  assert (Hj : (draw pos `mod` S k < S k)%nat) by (apply Nat.mod_upper_bound; lia).
  set (j := (draw pos `mod` S k)%nat) in *.
  replace (S k - 1)%nat with k by lia.
  destruct (lookup_lt_is_Some_2 pool j) as [x Hx]; [lia | ].
  destruct (lookup_lt_is_Some_2 pool k) as [y Hy]; [lia | ].
  rewrite Hx, Hy.
  rewrite IH by (rewrite length_insert; lia).
  rewrite (take_S_r pool k y Hy).
  destruct (decide (j = k)) as [-> | Hne].
  - rewrite take_insert_ge by lia.
    assert (x = y) by congruence. subst y.
    apply Permutation_cons_append.
  - rewrite take_insert_lt by lia.
    apply insert_swap_out.
    rewrite lookup_take_lt by lia. exact Hx.
Qed.

Lemma random_sample_all {A} (draw : nat -> nat) (pos : nat) (l : list A) :
  exists batch, random_sample draw pos l (length l) = Ok batch /\ batch ≡ₚ l.
Proof.
  unfold random_sample. rewrite Nat.ltb_irrefl.
  eexists. split; [reflexivity | ].
  rewrite sample_loop_perm by lia. rewrite firstn_all. reflexivity.
Qed.

(** ** The review cycle *)

Section ReviewProperties.
Context {Obs num : Type} {NU : Number num} {AP : Approximator num}.
Implicit Types (self : Self Obs num) (w : World num).

Lemma target_row_ok m discount cols (sample : Sample num) :
  net_ok cols -> 0 < cols -> 0 <= sample_action sample < cols ->
  exists y, target_row m discount cols sample = Ok y.
Proof.
  intros Hnet Hpos Hact.
  destruct sample as [[[[state action] reward] done] next_state].
  cbn [sample_action] in Hact.
  unfold target_row, td_target.
  assert (Htgt : exists tgt,
            (if done then Ok reward
             else best ← amax (predict m next_state);
                  Ok (nadd reward (nmul discount best))) = Ok tgt).
  { destruct done; [eexists; reflexivity | ].
    destruct (amax_nonempty (predict m next_state)) as [best Hb].
    - intros Hnil. pose proof (Hnet m next_state) as Hl.
      rewrite Hnil in Hl. simpl in Hl. lia.
    - rewrite Hb. eexists. reflexivity. }
  destruct Htgt as [tgt ->]. cbn [mbind Res_bind].
  rewrite setitem_in_range by (rewrite Hnet; exact Hact).
  cbn [mbind Res_bind].
  unfold reshape_row. rewrite length_insert, Hnet, Z.mul_1_l, Z.eqb_refl.
  rewrite orb_true_r. eexists. reflexivity.
Qed.

Lemma train_step_target_row (sample : Sample num) self w y :
  target_row (model self) (gamma self) (actionSize self) sample = Ok y ->
  exists w',
    train_step sample (self, w) =
      (Ok tt,
       (set_lossHistory
          (lossHistory self ++ [snd (fit (model self) (sample_state sample) y)])
          (set_model (fst (fit (model self) (sample_state sample) y)) self),
        w')) /\
    fit_calls w' = fit_calls w ++ [(sample_state sample, y)] /\
    weights_files w' = weights_files w /\
    log_files w' = log_files w /\
    py_randbelow w' = py_randbelow w /\
    py_pos w' = py_pos w.
Proof.
  destruct sample as [[[[state action] reward] done] next_state].
  unfold target_row. intros Hrow.
  rewrite train_step_run. cbn zeta. cbn [sample_state].
  destruct (td_target (model self) (gamma self)
              (state, action, reward, done, next_state)) as [tgt | ];
    [ | discriminate].
  cbn [mbind Res_bind] in Hrow.
  destruct (setitem (predict (model self) state) action tgt) as [y0 | ];
    [ | discriminate].
  cbn [mbind Res_bind] in Hrow. rewrite Hrow.
  eexists. split; [reflexivity | ].
  destruct done; repeat split; reflexivity.
Qed.

Lemma train_loop_run cols (batch : list (Sample num)) :
  net_ok cols -> 0 < cols ->
  Forall (fun sample => 0 <= sample_action sample < cols) batch ->
  forall self w,
    actionSize self = cols ->
    exists self' w',
      for_each train_step batch (self, w) = (Ok tt, (self', w')) /\
      fit_calls w' =
        fit_calls w ++ expected_fits (model self) (gamma self) cols batch /\
      length (lossHistory self') = (length (lossHistory self) + length batch)%nat /\
      memory self' = memory self /\ name self' = name self /\
      epsilon self' = epsilon self /\ epsilonDecay self' = epsilonDecay self /\
      weights_files w' = weights_files w /\ log_files w' = log_files w.
Proof.
  intros Hnet Hpos Hall. induction Hall as [ | sample batch Hact Hall IH];
    intros self w Hcols.
  - exists self, w. cbn. rewrite app_nil_r, Nat.add_0_r. repeat split.
  - destruct (target_row_ok (model self) (gamma self) cols sample Hnet Hpos Hact)
      as [y Hy].
    pose proof Hy as Hy'. rewrite <- Hcols in Hy'.
    destruct (train_step_target_row sample self w y Hy')
      as (w1 & Hstep & Hfit & Hwf & Hlf & _ & _).
    cbn [for_each expected_fits]. unfold mbind at 1, M_bind at 1.
    rewrite Hstep, Hy.
    destruct (IH (set_lossHistory
                    (lossHistory self ++ [snd (fit (model self) (sample_state sample) y)])
                    (set_model (fst (fit (model self) (sample_state sample) y)) self))
                 w1 Hcols)
      as (self' & w' & Hrun & Hfits & Hloss & Hmem & Hname & Heps & Hdec & Hw & Hl).
    exists self', w'. rewrite Hrun. cbn in *.
    rewrite Hfits, Hfit, Hloss, length_app, <- app_assoc. cbn.
    repeat split; try assumption; try congruence; lia.
Qed.

Lemma expected_fits_states cols m discount (batch : list (Sample num)) :
  net_ok cols -> 0 < cols ->
  Forall (fun sample => 0 <= sample_action sample < cols) batch ->
  map fst (expected_fits m discount cols batch) = map sample_state batch.
Proof.
  intros Hnet Hpos Hall. revert m.
  induction Hall as [ | sample batch Hact Hall IH]; intros m; [reflexivity | ].
  cbn [expected_fits].
  destruct (target_row_ok m discount cols sample Hnet Hpos Hact) as [y ->].
  cbn. rewrite IH. reflexivity.
Qed.

Lemma trainNetwork_run cols (data : list (Sample num)) self w :
  net_ok cols -> 0 < cols ->
  Forall (fun sample => 0 <= sample_action sample < cols) data ->
  actionSize self = cols ->
  exists batch self' w',
    trainNetwork data (self, w) = (Ok tt, (self', w')) /\
    batch ≡ₚ data /\
    fit_calls w' =
      fit_calls w ++ expected_fits (model self) (gamma self) cols batch /\
    length (lossHistory self') = length data /\
    memory self' = memory self /\ name self' = name self /\
    epsilon self' =
      (if nltb EPSILON_MIN (epsilon self)
       then nmul (epsilon self) (epsilonDecay self) else epsilon self) /\
    weights_files w' = weights_files w /\ log_files w' = log_files w.
Proof.
  intros Hnet Hpos Hall Hcols.
  destruct (random_sample_all (py_randbelow w) (py_pos w) data)
    as (batch & Hsample & Hperm).
  assert (Hall' : Forall (fun sample => 0 <= sample_action sample < cols) batch)
    by (rewrite Hperm; exact Hall).
  destruct (train_loop_run cols batch Hnet Hpos Hall'
              (set_lossHistory [] self)
              (set_py_pos (py_pos w + length data) w) Hcols)
    as (self1 & w1 & Hrun & Hfits & Hloss & Hmem & Hname & Heps & Hdec & Hw & Hl).
  exists batch.
  unfold trainNetwork, losses_clear. run_monad.
  rewrite Hsample. cbn [fst snd]. rewrite Hrun. cbn [fst snd].
  cbn in Hfits, Hloss, Hmem, Hname, Heps, Hdec, Hw, Hl.
  assert (Hlen : length batch = length data) by (rewrite Hperm; reflexivity).
  rewrite Heps, Hdec.
  destruct (nltb EPSILON_MIN (epsilon self)).
  - eexists _, _. split; [reflexivity | ].
    cbn. repeat split; try assumption; congruence.
  - eexists _, _. split; [reflexivity | ].
    repeat split; try assumption; congruence.
Qed.

Lemma saveModel_run self w :
  saveModel (self, w) =
  let path := path_join DEFAULT_LOGS_DIR_PATH (getLogsName self) in
  let w1 :=
    open_append path
      (set_weights_files
         (<[path_join DEFAULT_MODELS_DIR_PATH (getModelName self) := model self]>
            (weights_files w)) w) in
  match truediv (py_sum (lossHistory self))
                (Z.of_nat (length (lossHistory self))) with
  | Ok mean => (Ok tt, (self, write_line path mean w1))
  | Raise e => (Raise e, (self, w1))
  end.
Proof.
  unfold saveModel. run_monad. case_branches; reflexivity.
Qed.

Lemma prepare_loop_ok self (steps : list (Step Obs num)) :
  Forall (step_encodable (stateSize self)) steps ->
  forall data,
    prepare_loop self steps data =
    Ok (data ++ map (prepared (stateSize self)) steps).
Proof.
  induction 1 as [ | step steps [Hs Hn] _ IH]; intros data.
  - cbn. rewrite app_nil_r. reflexivity.
  - cbn [prepare_loop map]. unfold prepared at 1, encoded.
    unfold encodable in Hs, Hn.
    destruct (prepareNetworkInputs (stateSize self) (step_state step));
      [ | discriminate].
    destruct (prepareNetworkInputs (stateSize self) (step_nextState step));
      [ | discriminate].
    cbn [mbind Res_bind]. rewrite IH, <- app_assoc. reflexivity.
Qed.

(** A review of a non-empty buffer of well-formed steps. *)
Lemma reviewFight_run cols self w :
  net_ok cols -> 0 < cols -> actionSize self = cols ->
  Forall (fun step => 0 <= step_action step < cols) (memory self) ->
  Forall (step_encodable (stateSize self)) (memory self) ->
  memory self <> [] ->
  exists batch self' w',
    reviewFight (self, w) = (Ok tt, (self', w')) /\
    memory self' = [] /\
    batch ≡ₚ map (prepared (stateSize self)) (memory self) /\
    fit_calls w' =
      fit_calls w ++ expected_fits (model self) (gamma self) cols batch.
Proof.
  intros Hnet Hpos Hcols Hact Henc Hne.
  set (data := map (prepared (stateSize self)) (memory self)).
  assert (Hdata : Forall (fun sample => 0 <= sample_action sample < cols) data).
  { subst data. apply Forall_map. exact Hact. }
  destruct (trainNetwork_run cols data self w Hnet Hpos Hdata Hcols)
    as (batch & self1 & w1 & Hrun & Hperm & Hfits & Hloss & Hmem & Hname
        & Heps & Hw & Hl).
  exists batch.
  unfold reviewFight, prepareMemoryForTraining, prepareForNextFight. run_monad.
  rewrite (prepare_loop_ok self (memory self) Henc []). cbn [app fst snd].
  fold data. rewrite Hrun. cbn [fst snd].
  rewrite saveModel_run. cbn zeta.
  assert (Hlen : Z.of_nat (length (lossHistory self1)) <> 0).
  { rewrite Hloss. subst data. rewrite length_map.
    destruct (memory self); [congruence | simpl; lia]. }
  unfold truediv. destruct (Z.eqb_spec (Z.of_nat (length (lossHistory self1))) 0);
    [contradiction | ].
  cbn [fst snd].
  eexists _, _. split; [reflexivity | ].
  split; [reflexivity | ]. split; [exact Hperm | ].
  cbn. exact Hfits.
Qed.

End ReviewProperties.

Section EpisodeProperties.
Context {Obs num : Type} {NU : Number num} {AP : Approximator num}.
Implicit Types (self : Self Obs num) (w : World num).

Lemma kept_frames_length (fs : list (Frame (Obs:=Obs) (num:=num))) :
  Z.of_nat (length (kept_frames fs)) = Z.min (Z.of_nat (length fs)) MAX_DATA_LENGTH.
Proof. unfold kept_frames, MAX_DATA_LENGTH. rewrite length_drop. lia. Qed.

(** Recording frames into an empty buffer and reviewing: the shared
    statement behind the properties of the review cycle. *)
Lemma record_then_review_run self w a fs :
  net_ok (actionSize self) ->
  0 <= a < actionSize self ->
  lastAction self = Some a ->
  memory self = [] ->
  fs <> [] ->
  Forall (frame_encodable (stateSize self)) fs ->
  exists fits self' w',
    record_then_review fs (self, w) = (Ok tt, (self', w')) /\
    memory self' = [] /\
    fit_calls w' = fit_calls w ++ fits /\
    length fits = length (kept_frames fs) /\
    map fst fits ≡ₚ
      map (fun f => encoded (stateSize self) (f_state f)) (kept_frames fs).
Proof.
  intros Hnet Ha Hlast Hmem Hne Henc.
  unfold record_then_review. unfold mbind, M_bind.
  rewrite (record_all_run fs self w a Hlast).
  rewrite Hmem, deque_appends; [ | reflexivity | simpl; unfold MAX_DATA_LENGTH; lia].
  cbn [app]. rewrite length_map, skipn_map. fold (kept_frames fs).
  set (self1 := set_memory (map (step_of a) (kept_frames fs)) self).
  assert (Hkne : kept_frames fs <> []).
  { intros Hnil. pose proof (kept_frames_length fs) as Hl. rewrite Hnil in Hl.
    destruct fs; [congruence | ]. simpl in Hl. unfold MAX_DATA_LENGTH in Hl. lia. }
  assert (Hkenc : Forall (frame_encodable (stateSize self)) (kept_frames fs)).
  { unfold kept_frames. apply Forall_drop. exact Henc. }
  destruct (reviewFight_run (actionSize self) self1 w) as
    (batch & self' & w' & Hrun & Hmem' & Hperm & Hfits).
  - exact Hnet.
  - lia.
  - reflexivity.
  - subst self1. cbn. apply Forall_map. apply Forall_forall. intros f _. exact Ha.
  - subst self1. cbn. apply Forall_map.
    eapply Forall_impl; [exact Hkenc | ]. intros f Hf. exact Hf.
  - subst self1. cbn. destruct (kept_frames fs); [congruence | discriminate].
  - assert (Hbatch : Forall (fun sample => 0 <= sample_action sample < actionSize self)
                       batch).
    { rewrite Hperm. subst self1. cbn. apply Forall_map, Forall_map.
      apply Forall_forall. intros f _. exact Ha. }
    assert (Hstates :
              map fst (expected_fits (model self1) (gamma self1) (actionSize self) batch)
              = map sample_state batch).
    { apply expected_fits_states; [exact Hnet | lia | exact Hbatch]. }
    eexists _, self', w'. rewrite Hrun.
    split; [reflexivity | ]. split; [exact Hmem' | ]. split; [exact Hfits | ].
    split.
    + rewrite <- (length_map fst), Hstates, length_map, Hperm.
      subst self1. cbn. rewrite !length_map. reflexivity.
    + rewrite Hstates, Hperm. subst self1. cbn.
      rewrite !map_map. reflexivity.
Qed.

(** C5, amended. After [k >= 1] encodable transitions are recorded into an
    empty buffer, one review performs exactly one fitting step per
    transition held in the buffer, which are the most recent
    [min(k, 50000)] of them: the fitted states are a permutation of the
    encoded states of those transitions (each exactly once, none left
    out), and the buffer is empty afterwards. *)
Theorem review_fits_each_transition_once self w a fs :
  net_ok (actionSize self) ->
  0 <= a < actionSize self ->
  lastAction self = Some a ->
  memory self = [] ->
  fs <> [] ->
  Forall (frame_encodable (stateSize self)) fs ->
  let after := record_then_review fs (self, w) in
  fst after = Ok tt /\
  memory (self_of after) = [] /\
  exists fits,
    fit_calls (world_of after) = fit_calls w ++ fits /\
    Z.of_nat (length fits) = Z.min (Z.of_nat (length fs)) MAX_DATA_LENGTH /\
    map fst fits ≡ₚ
      map (fun f => encoded (stateSize self) (f_state f)) (kept_frames fs).
Proof.
  intros Hnet Ha Hlast Hmem Hne Henc after.
  destruct (record_then_review_run self w a fs Hnet Ha Hlast Hmem Hne Henc)
    as (fits & self' & w' & Hrun & Hmem' & Hfits & Hlen & Hperm).
  subst after. rewrite Hrun. unfold self_of, world_of. cbn [fst snd].
  split; [reflexivity | ]. split; [exact Hmem' | ].
  exists fits. split; [exact Hfits | ]. split; [ | exact Hperm].
  rewrite Hlen. apply kept_frames_length.
Qed.

End EpisodeProperties.

Lemma counting_net_ok : net_ok (AP:=counting_net) 3.
Proof. intros m x. reflexivity. Defined.

Lemma example_frames_encodable :
  Forall (frame_encodable 32) example_frames.
Proof. repeat constructor; vm_compute; reflexivity. Defined.

Lemma review_fits_each_transition_once_witness :
  let after := record_then_review example_frames (recording_agent, quiet_world) in
  fst after = Ok tt /\
  memory (self_of after) = [] /\
  exists fits,
    fit_calls (world_of after) = fits /\ Z.of_nat (length fits) = 3.
Proof.
  destruct (review_fits_each_transition_once recording_agent quiet_world 1
              example_frames) as (Hok & Hmem & fits & Hfits & Hlen & _).
  - exact counting_net_ok.
  - vm_compute. split; [discriminate | reflexivity].
  - reflexivity.
  - reflexivity.
  - discriminate.
  - exact example_frames_encodable.
  - split; [exact Hok | ]. split; [exact Hmem | ].
    exists fits. split; [exact Hfits | exact Hlen].
Defined.

(** C5, counterexample. Appending 50001 (well-formed) transitions to an
    empty buffer and reviewing completes normally and performs 50000
    fitting steps, not 50001: the bounded buffer has dropped the first
    transition before the review. *)
Lemma review_of_50001_transitions :
  let fs := replicate (Z.to_nat 50001) (example_frame 1 true) in
  let after := record_then_review fs (recording_agent, quiet_world) in
  Z.of_nat (length fs) = 50001 /\
  fst after = Ok tt /\
  Z.of_nat (length (fit_calls (world_of after))) = 50000.
Proof.
  intros fs after.
  assert (Hlen : Z.of_nat (length fs) = 50001)
    by (subst fs; rewrite length_replicate; lia).
  destruct (record_then_review_run recording_agent quiet_world 1 fs)
    as (fits & self' & w' & Hrun & _ & Hfits & Hk & _).
  - exact counting_net_ok.
  - vm_compute. split; [discriminate | reflexivity].
  - reflexivity.
  - reflexivity.
  - intros Hnil. rewrite Hnil in Hlen. discriminate Hlen.
  - subst fs. apply Forall_replicate. split; vm_compute; reflexivity.
  - split; [exact Hlen | ].
    subst after. rewrite Hrun. unfold world_of. cbn [fst snd].
    split; [reflexivity | ].
    rewrite Hfits. change (fit_calls quiet_world) with (@nil (list Z * list Q)).
    cbn [app]. rewrite Hk, kept_frames_length, Hlen. reflexivity.
Qed.


(** In binary64 arithmetic a NaN among the predictions is what
    [numpy.amax] returns and where [numpy.argmax] points. *)
Example maximum_of_a_row_with_nan :
  amax [1%float; PrimFloat.nan; 2%float] = Ok PrimFloat.nan /\
  argmax [1%float; PrimFloat.nan; 2%float] = Ok 1 /\
  amax [1%float; 3%float; 2%float] = Ok 3%float /\
  argmax [1%float; 3%float; 3%float] = Ok 1.
Proof. repeat split; vm_compute; reflexivity. Qed.

(** The documented example: reward 1.0, gamma 0.98 and a largest next-state
    value of 2.0 give the target 2.96, in exact and in binary64
    arithmetic; a terminal transition gives the reward itself. *)
Example td_target_example :
  (forall tgt, td_target (AP:=counting_net) 0 DEFAULT_DISCOUNT_RATE
                 ([], 1, 1%Q, false, []) = Ok tgt -> (tgt == 2.96)%Q) /\
  td_target (AP:=constant_net) tt DEFAULT_DISCOUNT_RATE
    ([], 1, 1%float, false, []) = Ok (decimal 296 100) /\
  td_target (AP:=constant_net) tt DEFAULT_DISCOUNT_RATE
    ([], 1, 1%float, true, []) = Ok 1%float.
Proof.
  split; [ | split].
  - intros tgt [= <-]. reflexivity.
  - vm_compute. reflexivity.
  - reflexivity.
Qed.

(** In a pass over two transitions, the second target is computed with the
    model the first fitting step produced: [counting_net] predicts its own
    step count at position 0, which is 0 in the first fitted row and 1 in
    the second. *)
Example second_step_uses_updated_model :
  fit_calls
    (world_of (for_each train_step
                 [([], 1, 1%Q, true, []); ([], 2, 5%Q, true, [])]
                 (example_agent, quiet_world))) =
  [([], [0%Q; 1%Q; 2%Q]); ([], [inject_Z 1; 2%Q; 5%Q])].
Proof. vm_compute. reflexivity. Qed.

(** ** Persistence *)

Section PersistProperties.
Context {Obs num : Type} {NU : Number num} {AP : Approximator num}.
Implicit Types (self : Self Obs num) (w : World num).

Lemma trainNetwork_empty self w :
  trainNetwork [] (self, w) =
  (Ok tt,
   (if nltb EPSILON_MIN (epsilon self)
    then set_epsilon (nmul (epsilon self) (epsilonDecay self))
           (set_lossHistory [] self)
    else set_lossHistory [] self,
    set_py_pos (py_pos w + 0) w)).
Proof.
  unfold trainNetwork, losses_clear. run_monad. cbn.
  destruct (nltb EPSILON_MIN (epsilon self)); reflexivity.
Qed.

(** C10. [saveModel] writes the weights, opens the log and logs the sum of
    the recorded losses divided by their number; with an empty loss
    history the division raises [ZeroDivisionError] and no line is
    logged.  A review of an empty buffer performs no fitting step, leaves
    the history empty and therefore fails in this way, before the buffer
    is reset. *)
Theorem saveModel_mean_or_zero_division :
  (forall self w,
     let path := path_join DEFAULT_LOGS_DIR_PATH (getLogsName self) in
     let w1 :=
       open_append path
         (set_weights_files
            (<[path_join DEFAULT_MODELS_DIR_PATH (getModelName self) := model self]>
               (weights_files w)) w) in
     saveModel (self, w) =
     match lossHistory self with
     | [] => (Raise ZeroDivisionError, (self, w1))
     | _ :: _ =>
         (Ok tt,
          (self,
           write_line path
             (ndiv (fold_left nadd (lossHistory self) (of_int 0))
                   (of_int (Z.of_nat (length (lossHistory self))))) w1))
     end) /\
  (forall self w,
     let path := path_join DEFAULT_LOGS_DIR_PATH (getLogsName self) in
     let after := reviewFight (set_memory [] self, w) in
     fst after = Raise ZeroDivisionError /\
     fit_calls (world_of after) = fit_calls w /\
     lossHistory (self_of after) = [] /\
     log_files (world_of after) !! path = Some (default [] (log_files w !! path))).
Proof.
  split.
  - intros self w path w1. rewrite saveModel_run. cbn zeta.
    unfold truediv, py_sum.
    destruct (lossHistory self) as [ | loss losses]; [reflexivity | ].
    destruct (Z.eqb_spec (Z.of_nat (length (loss :: losses))) 0) as [E | _];
      [simpl in E; lia | reflexivity].
  - intros self w path after. subst after path.
    unfold reviewFight, prepareMemoryForTraining, prepareForNextFight.
    unfold mbind, M_bind, get_self, lift. cbn [fst snd prepare_loop memory set_memory].
    rewrite trainNetwork_empty, saveModel_run. unfold self_of, world_of.
    cbn [epsilon set_memory].
    destruct (nltb EPSILON_MIN (epsilon self)); cbn.
    + repeat split. apply lookup_insert_eq.
    + repeat split. apply lookup_insert_eq.
Qed.

End PersistProperties.

Example saveModel_logs_mean :
  log_files
    (world_of (saveModel (set_lossHistory [1%Q; 2%Q; (1 # 2)%Q] example_agent,
                          quiet_world)))
    !! "../logs/DeepQAgentLogs" = Some [(0 + 1 + 2 + (1 # 2)) / 3]%Q.
Proof. vm_compute. reflexivity. Qed.

(** ** Exploration-rate decay *)

Section DecayProperties.
Context {num : Type} {NU : Number num} {AP : Approximator num}.
Implicit Types (self : Self unit num) (w : World num).

(** One more pass over an empty batch, seen from the exploration rate. *)
Lemma epsilon_after_S n self w :
  epsilon_after (S n) self w =
  epsilon_after n
    (if nltb EPSILON_MIN (epsilon self)
     then set_epsilon (nmul (epsilon self) (epsilonDecay self))
            (set_lossHistory [] self)
     else set_lossHistory [] self)
    (set_py_pos (py_pos w + 0) w).
Proof.
  unfold epsilon_after. cbn [repeat_passes]. unfold mbind at 1, M_bind at 1.
  rewrite trainNetwork_empty. reflexivity.
Qed.

(** Once the rate is not above the minimum, passes leave it where it is. *)
Lemma epsilon_after_floor n : forall self w,
  nltb EPSILON_MIN (epsilon self) = false ->
  epsilon_after n self w = epsilon self.
Proof.
  induction n as [ | n IH]; intros self w Hle; [reflexivity | ].
  rewrite epsilon_after_S, Hle.
  exact (IH (set_lossHistory [] self) _ Hle).
Qed.

End DecayProperties.

(** C3, evaluated in binary64 arithmetic, the arithmetic of the source.
    From epsilon = 1 with decay 0.999 and minimum 0.1, the rate is still
    above the minimum after 2301 passes; the 2302nd pass multiplies once
    more and leaves a value below the minimum 0.1 (where
    [max(0.1, 0.999^2302)] is 0.1), and an agent holding that value keeps
    it through every later pass. *)
Theorem epsilon_drops_below_minimum :
  let w := example_world (fun _ => 0%float) in
  PrimFloat.ltb EPSILON_MIN (epsilon_after 2301 float_agent w) = true /\
  PrimFloat.ltb (epsilon_after 2302 float_agent w) EPSILON_MIN = true /\
  PrimFloat.eqb (epsilon_after 2302 float_agent w)
                (PrimFloat.mul (epsilon_after 2301 float_agent w)
                               DEFAULT_EPSILON_DECAY) = true /\
  PrimFloat.eqb (epsilon_after 5000 float_agent w)
                (epsilon_after 2302 float_agent w) = true.
Proof. repeat split; vm_compute; reflexivity. Qed.

(** *** The same in exact arithmetic *)

Lemma epsilon_after_iter {num : Type} {NU : Number num} {AP : Approximator num}
    (n : nat) : forall (self : Self unit num) (w : World num),
  epsilon_after n self w =
  Nat.iter n (decay_step (AP:=AP) (epsilonDecay self)) (epsilon self).
Proof.
  induction n as [ | n IH]; intros self w; [reflexivity | ].
  rewrite epsilon_after_S, IH, Nat.iter_succ_r.
  destruct (nltb EPSILON_MIN (epsilon self)) eqn:E.
  - assert (Hs : decay_step (epsilonDecay self) (epsilon self) =
                 nmul (epsilon self) (epsilonDecay self))
      by (unfold decay_step; rewrite E; reflexivity).
    rewrite Hs. reflexivity.
  - assert (Hs : decay_step (epsilonDecay self) (epsilon self) = epsilon self)
      by (unfold decay_step; rewrite E; reflexivity).
    rewrite Hs. reflexivity.
Qed.

Lemma decayed_lo_bound k :
  0 <= decayed_lo k /\
  decayed_lo k * Zpos (Qden (decayed k)) <= 10 ^ 30 * Qnum (decayed k).
Proof.
  induction k as [ | k [Hpos IH]]; [split; vm_compute; discriminate | ].
  cbn [decayed_lo decayed Qmult Qnum Qden].
  set (a := decayed_lo k) in *. set (d := Qden (decayed k)) in *.
  set (n := Qnum (decayed k)) in *.
  assert (Hdiv : 1000 * (a * 999 / 1000) <= a * 999)
    by (apply Z.mul_div_le; lia).
  split; [apply Z.div_pos; lia | ].
  rewrite Pos2Z.inj_mul. nia.
Qed.

Lemma decayed_up_bound k :
  10 ^ 30 * Qnum (decayed k) <= decayed_up k * Zpos (Qden (decayed k)).
Proof.
  induction k as [ | k IH]; [vm_compute; discriminate | ].
  cbn [decayed_up decayed Qmult Qnum Qden].
  set (a := decayed_up k) in *. set (d := Qden (decayed k)) in *.
  set (n := Qnum (decayed k)) in *.
  assert (Hdiv : a * 999 < 1000 * (a * 999 / 1000 + 1)).
  { pose proof (Z.mul_succ_div_gt (a * 999) 1000 ltac:(lia)). lia. }
  rewrite Pos2Z.inj_mul. nia.
Qed.

Lemma decayed_lo_mono j k : (j <= k)%nat -> decayed_lo k <= decayed_lo j.
Proof.
  induction 1 as [ | k _ IH]; [lia | ].
  cbn [decayed_lo]. destruct (decayed_lo_bound k) as [Hpos _].
  assert (decayed_lo k * 999 / 1000 <= decayed_lo k)
    by (apply Z.div_le_upper_bound; lia).
  lia.
Qed.

Lemma decayed_above_minimum k :
  (k <= 2301)%nat -> Qltb EPSILON_MIN (decayed k) = true.
Proof.
  intros Hk. apply Qltb_true.
  assert (Hlo : 10 ^ 29 < decayed_lo 2301) by (vm_compute; reflexivity).
  pose proof (decayed_lo_mono k 2301 Hk) as Hmono.
  destruct (decayed_lo_bound k) as [_ Hb].
  change EPSILON_MIN with (1 # 10)%Q.
  unfold Qlt. cbn [Qnum Qden].
  change (10 ^ 30) with (10 * 10 ^ 29) in Hb.
  assert (0 < 10 ^ 29) by reflexivity.
  nia.
Qed.

Lemma decayed_2302_below_minimum : Qltb (decayed 2302) EPSILON_MIN = true.
Proof.
  apply Qltb_true.
  assert (Hup : decayed_up 2302 < 10 ^ 29) by (vm_compute; reflexivity).
  pose proof (decayed_up_bound 2302) as Hb.
  change EPSILON_MIN with (1 # 10)%Q.
  unfold Qlt. cbn [Qnum Qden].
  change (10 ^ 30) with (10 * 10 ^ 29) in Hb.
  assert (0 < 10 ^ 29) by reflexivity.
  nia.
Qed.

Lemma decay_iter_exact k :
  (k <= 2302)%nat ->
  Nat.iter k (decay_step (AP:=counting_net) (999 # 1000)%Q) (inject_Z 1) = decayed k.
Proof.
  induction k as [ | k IH]; intros Hk; [reflexivity | ].
  rewrite Nat.iter_succ, IH by lia.
  unfold decay_step. cbn [nltb nmul Q_Number].
  rewrite decayed_above_minimum by lia. reflexivity.
Qed.

Lemma decayed_power n : (decayed n == Qpower (999 # 1000) (Z.of_nat n))%Q.
Proof.
  induction n as [ | n IH]; [reflexivity | ].
  rewrite Nat2Z.inj_succ. unfold Z.succ. rewrite Qpower_plus' by lia.
  cbn [decayed]. rewrite IH. reflexivity.
Qed.

Lemma epsilon_exact_upto (w : World Q) n :
  (n <= 2302)%nat -> epsilon_after n example_agent w = decayed n.
Proof.
  intros Hn. rewrite epsilon_after_iter. apply decay_iter_exact. exact Hn.
Qed.

Lemma decay_step_floor (e : Q) m :
  Qltb e EPSILON_MIN = true ->
  Nat.iter m (decay_step (AP:=counting_net) (999 # 1000)%Q) e = e.
Proof.
  intros Hb. apply Qltb_true in Hb.
  induction m as [ | m IH]; [reflexivity | ].
  rewrite Nat.iter_succ, IH. unfold decay_step. cbn [nltb Q_Number].
  destruct (Qltb EPSILON_MIN e) eqn:E; [ | reflexivity].
  apply Qltb_true in E. exfalso. exact (Qlt_irrefl _ (Qlt_trans _ _ _ E Hb)).
Qed.

Lemma epsilon_exact_after (w : World Q) n :
  (2302 <= n)%nat -> epsilon_after n example_agent w = decayed 2302.
Proof.
  intros Hn. replace n with ((n - 2302) + 2302)%nat by lia.
  generalize (n - 2302)%nat as m. clear n Hn. intros m.
  rewrite epsilon_after_iter, Nat.iter_add.
  change (epsilonDecay example_agent) with (999 # 1000)%Q.
  change (epsilon example_agent) with (inject_Z 1).
  rewrite (decay_iter_exact 2302) by lia.
  apply decay_step_floor. exact decayed_2302_below_minimum.
Qed.

(** From epsilon = 1, in exact arithmetic: for every [n <= 2301] the rate
    after [n] passes is [0.999^n], above the minimum, hence
    [max(0.1, 0.999^n)]; from 2302 passes on it is [0.999^2302], which is
    below the minimum. *)
Lemma epsilon_exact_decay (w : World Q) :
  (forall n, (n <= 2301)%nat ->
     (epsilon_after n example_agent w == Qpower (999 # 1000) (Z.of_nat n))%Q /\
     (EPSILON_MIN < epsilon_after n example_agent w)%Q) /\
  (forall n, (2302 <= n)%nat ->
     (epsilon_after n example_agent w == Qpower (999 # 1000) 2302)%Q /\
     (epsilon_after n example_agent w < EPSILON_MIN)%Q).
Proof.
  split.
  - intros n Hn. rewrite epsilon_exact_upto by lia.
    split; [apply decayed_power | ].
    apply Qltb_true. apply decayed_above_minimum. exact Hn.
  - intros n Hn. rewrite epsilon_exact_after by exact Hn.
    split; [exact (decayed_power 2302) | ].
    apply Qltb_true. exact decayed_2302_below_minimum.
Qed.

(** ** Further examples *)

(** A greedy call returns move 1 while the step recorded after it carries
    the action 0 that [lastAction] held before the call. *)
Example recorded_action_is_not_the_move :
  let st := (set_lastAction (Some 0) greedy_agent,
             example_world (fun _ => (1 # 2)%Q)) in
  let moved := getMove tt example_state st in
  fst moved = Ok (VInt 1) /\
  map step_action
    (memory (self_of (recordStep tt example_state 1%Q tt example_state false
                        (snd moved)))) = [0].
Proof. vm_compute. split; reflexivity. Qed.

(** With the default exploration rate 1 every draw of [0, 1) explores, and
    the exploration branch of these sources calls [getRandomMove] without
    the argument its definition in [Agent.py] requires; without an
    environment the call fails before that. *)
Example exploration_branch :
  fst (getMove tt example_state
         (fielded_agent, example_world (fun _ => (999 # 1000)%Q))) =
    Raise TypeError /\
  fst (getMove tt example_state
         (example_agent, example_world (fun _ => (999 # 1000)%Q))) =
    Raise AttributeError.
Proof. vm_compute. split; reflexivity. Qed.

(** * Further properties of the sources *)

(** ** Encoder: fields, bounds and injectivity *)

Lemma setitem_raises {A} (l : list A) i x e :
  setitem l i x = Raise e -> e = IndexError.
Proof.
  unfold setitem.
  destruct ((0 <=? i) && (i <? Z.of_nat (length l))); [discriminate | ].
  destruct ((- Z.of_nat (length l) <=? i) && (i <? 0)); [discriminate | ].
  intros [= <-]. reflexivity.
Qed.

Lemma status_segment_raises c e :
  status_segment c = Raise e -> e = KeyError.
Proof.
  unfold status_segment. destruct (contains doneKeys c); [discriminate | ].
  destruct (stateIndices !! c); [discriminate | ].
  intros [= <-]. reflexivity.
Qed.

(** The guarded one-hot assignment of the encoder is [status_segment]. *)
Lemma guarded_one_hot c :
  (if negb (contains doneKeys c)
   then i ← getitem stateIndices c; setitem (replicate 9 0) i 1
   else Ok (replicate 9 0)) = status_segment c.
Proof.
  unfold status_segment.
  destruct (contains doneKeys c) eqn:Hd; [reflexivity | ].
  cbn [negb]. unfold getitem.
  destruct (stateIndices !! c) as [i | ] eqn:Hi; [ | reflexivity].
  cbn [mbind Res_bind].
  destruct (stateIndices_known _ _ Hi) as [_ Hr].
  apply setitem_in_range. rewrite length_replicate. lia.
Qed.

(** The encoder on any mapping that carries the nine fields, whatever
    their values. *)
Lemma prepareNetworkInputs_fields stateSize step t :
  has_fields step t ->
  prepareNetworkInputs stateSize step =
    (es ← status_segment (t_enemy_status t);
     ch ← setitem (replicate 8 0) (t_enemy_character t) 1;
     ps ← status_segment (t_status t);
     reshape_row ([t_enemy_health t; t_enemy_x t; t_enemy_y t] ++ es ++ ch
                  ++ [t_health t; t_x t; t_y t] ++ ps) stateSize).
Proof.
  intros (H1 & H2 & H3 & H4 & H5 & H6 & H7 & H8 & H9).
  unfold prepareNetworkInputs.
  rewrite (getitem_Some _ _ _ H1), (getitem_Some _ _ _ H2),
    (getitem_Some _ _ _ H3), (getitem_Some _ _ _ H4),
    (getitem_Some _ _ _ H5), (getitem_Some _ _ _ H6),
    (getitem_Some _ _ _ H7), (getitem_Some _ _ _ H8),
    (getitem_Some _ _ _ H9).
  rewrite size_stateIndices. cbn [mbind Res_bind].
  rewrite !guarded_one_hot.
  destruct (status_segment (t_enemy_status t)) as [es | e]; [ | reflexivity].
  cbn [mbind Res_bind].
  destruct (setitem (replicate 8 0) (t_enemy_character t) 1) as [ch | e];
    [ | reflexivity].
  cbn [mbind Res_bind].
  destruct (status_segment (t_status t)) as [ps | e]; [ | reflexivity].
  cbn [mbind Res_bind].
  f_equal. cbn [app]. rewrite <- !app_assoc. reflexivity.
Qed.

Lemma getitem_None `{Countable K} {V} (d : gmap K V) k :
  d !! k = None -> getitem d k = Raise KeyError.
Proof. unfold getitem. intros ->. reflexivity. Qed.

Lemma reshape_row_Ok {A} (l v : list A) cols :
  reshape_row l cols = Ok v -> v = l.
Proof.
  unfold reshape_row.
  destruct ((cols =? -1) || (Z.of_nat (length l) =? 1 * cols));
    [intros [= <-]; reflexivity | discriminate].
Qed.

Ltac encoder_run :=
  repeat first
    [ match goal with
      | H : ?s !! ?k = Some _ |- context [getitem ?s ?k] =>
          rewrite (getitem_Some _ _ _ H)
      | H : ?s !! ?k = None |- context [getitem ?s ?k] =>
          rewrite (getitem_None _ _ H)
      end
    | rewrite size_stateIndices
    | rewrite guarded_one_hot
    | progress cbn [mbind Res_bind]
    | match goal with
      | |- context [mbind _ (status_segment ?c)] =>
          destruct (status_segment c) eqn:?
      | |- context [mbind _ (setitem ?l ?i ?x)] =>
          destruct (setitem l i x) eqn:?
      end ].

Ltac encoder_exception :=
  eexists; split; [reflexivity | ];
  repeat match goal with
         | H : status_segment _ = Raise _ |- _ =>
             apply status_segment_raises in H; subst
         | H : setitem _ _ _ = Raise _ |- _ =>
             apply setitem_raises in H; subst
         end;
  auto.

(** A mapping that lacks one of the nine fields is never encoded: the
    encoder raises [KeyError], unless an out-of-range [enemy_character],
    met before the missing field is read, raises [IndexError] first. *)
Theorem encoder_missing_field (stateSize : Z) (step : gmap string Z) (k : string) :
  In k encoder_keys ->
  step !! k = None ->
  exists e, prepareNetworkInputs stateSize step = Raise e /\
            (e = KeyError \/ e = IndexError).
Proof.
  intros Hin Hk. unfold prepareNetworkInputs.
  destruct (step !! "enemy_health") eqn:H1;
    [ | encoder_run; encoder_exception].
  destruct (step !! "enemy_x_position") eqn:H2;
    [ | encoder_run; encoder_exception].
  destruct (step !! "enemy_y_position") eqn:H3;
    [ | encoder_run; encoder_exception].
  destruct (step !! "enemy_status") eqn:H4;
    [ | encoder_run; encoder_exception].
  destruct (step !! "enemy_character") eqn:H5;
    [ | encoder_run; encoder_exception].
  destruct (step !! "health") eqn:H6;
    [ | encoder_run; encoder_exception].
  destruct (step !! "x_position") eqn:H7;
    [ | encoder_run; encoder_exception].
  destruct (step !! "y_position") eqn:H8;
    [ | encoder_run; encoder_exception].
  destruct (step !! "status") eqn:H9;
    [ | encoder_run; encoder_exception].
  exfalso. unfold encoder_keys in Hin. simpl in Hin.
  repeat (destruct Hin as [<- | Hin]; [congruence | ]).
  exact Hin.
Qed.

Lemma encoder_missing_field_witness :
  exists e, prepareNetworkInputs 32 (delete "health" example_state) = Raise e /\
            (e = KeyError \/ e = IndexError).
Proof.
  apply (encoder_missing_field 32 (delete "health" example_state) "health").
  - simpl. auto 10.
  - vm_compute. reflexivity.
Defined.

(** The encoder reads nothing but the nine fields: two mappings that agree
    on them are encoded alike (or fail alike), whatever else they hold. *)
Theorem encoder_reads_nine_fields (stateSize : Z) (s1 s2 : gmap string Z) :
  (forall k, In k encoder_keys -> s1 !! k = s2 !! k) ->
  prepareNetworkInputs stateSize s1 = prepareNetworkInputs stateSize s2.
Proof.
  intros H. unfold prepareNetworkInputs, getitem.
  rewrite (H "enemy_health"), (H "enemy_x_position"), (H "enemy_y_position"),
    (H "enemy_status"), (H "enemy_character"), (H "health"), (H "x_position"),
    (H "y_position"), (H "status") by (simpl; auto 10).
  reflexivity.
Qed.

Lemma encoder_reads_nine_fields_witness :
  prepareNetworkInputs 32 example_state =
  prepareNetworkInputs 32 (<["round_timer" := 39208]> (<["lives" := 2]> example_state)).
Proof.
  apply encoder_reads_nine_fields.
  intros k Hk. simpl in Hk.
  repeat (destruct Hk as [<- | Hk]; [vm_compute; reflexivity | ]).
  destruct Hk.
Defined.

Lemma index_code_of_status c i :
  stateIndices !! c = Some i -> 0 <= i < 9 /\ index_code i = c.
Proof.
  intros Hc. apply elem_of_list_to_map_2 in Hc.
  unfold stateIndices_items in Hc.
  repeat (apply elem_of_cons in Hc as [Hc | Hc];
          [inversion Hc; subst; split; [lia | reflexivity] | ]).
  inversion Hc.
Qed.

Lemma status_index_inj c1 c2 :
  is_Some (stateIndices !! c1) -> is_Some (stateIndices !! c2) ->
  status_index c1 = status_index c2 -> c1 = c2.
Proof.
  intros [i1 H1] [i2 H2]. unfold status_index. rewrite H1, H2.
  change (default 0 (Some i1)) with i1. change (default 0 (Some i2)) with i2.
  destruct (index_code_of_status _ _ H1) as [Hr1 E1].
  destruct (index_code_of_status _ _ H2) as [Hr2 E2].
  intros Heq. assert (i1 = i2) by lia. congruence.
Qed.

Lemma status_index_bound c :
  is_Some (stateIndices !! c) -> (status_index c < 9)%nat.
Proof.
  intros [i Hi]. unfold status_index. rewrite Hi.
  change (default 0 (Some i)) with i.
  destruct (index_code_of_status _ _ Hi) as [Hr _]. lia.
Qed.

Lemma one_hot_inj n i j :
  (i < n)%nat -> (j < n)%nat -> one_hot n i = one_hot n j -> i = j.
Proof.
  intros Hi Hj Heq. destruct (decide (i = j)) as [ | Hne]; [assumption | ].
  assert (Hl : one_hot n i !! i = Some 1)
    by (apply list_lookup_insert_eq; rewrite length_replicate; exact Hi).
  rewrite Heq in Hl. unfold one_hot in Hl.
  rewrite list_lookup_insert_ne in Hl by congruence.
  apply lookup_replicate in Hl as [Hl _]. discriminate.
Qed.

(** On valid mappings whose numeric fields fit 64-bit integers (the range
    in which NumPy keeps the entries exactly) the encoder loses nothing:
    two such mappings with the same feature vector carry the same nine
    field values. *)
Theorem encoder_injective (stateSize : Z) (s1 s2 : gmap string Z)
    (t1 t2 : Telemetry) (v : list Z) :
  valid_telemetry s1 t1 ->
  valid_telemetry s2 t2 ->
  int64_fields t1 ->
  int64_fields t2 ->
  prepareNetworkInputs stateSize s1 = Ok v ->
  prepareNetworkInputs stateSize s2 = Ok v ->
  t1 = t2.
Proof.
  intros (Hf1 & He1 & Hc1 & Hp1) (Hf2 & He2 & Hc2 & Hp2) _ _ Hv1 Hv2.
  rewrite (prepareNetworkInputs_spec _ _ _ Hf1 Hc1) in Hv1.
  rewrite (prepareNetworkInputs_spec _ _ _ Hf2 Hc2) in Hv2.
  rewrite (status_segment_known _ He1), (status_segment_known _ Hp1) in Hv1.
  rewrite (status_segment_known _ He2), (status_segment_known _ Hp2) in Hv2.
  cbn [mbind Res_bind] in Hv1, Hv2.
  apply reshape_row_Ok in Hv1, Hv2. rewrite Hv1 in Hv2. clear Hv1 v.
  cbn [app] in Hv2. injection Hv2 as A1 A2 A3 Hrest.
  apply app_inj_1 in Hrest as [B1 Hrest]; [ | rewrite !length_one_hot; reflexivity].
  apply app_inj_1 in Hrest as [B2 Hrest]; [ | rewrite !length_one_hot; reflexivity].
  cbn [app] in Hrest. injection Hrest as A4 A5 A6 B3.
  apply one_hot_inj in B1; try (apply status_index_bound; assumption).
  apply one_hot_inj in B2; try lia.
  apply one_hot_inj in B3; try (apply status_index_bound; assumption).
  apply status_index_inj in B1; try assumption.
  apply status_index_inj in B3; try assumption.
  assert (t_enemy_character t1 = t_enemy_character t2) by lia.
  destruct t1, t2. cbn in *. congruence.
Qed.

Lemma encoder_injective_witness :
  example_telemetry = example_telemetry.
Proof.
  assert (Hv : valid_telemetry example_state example_telemetry).
  { split; [exact example_state_fields | ].
    split; [exists 1; vm_compute; reflexivity | ].
    split; [simpl; lia | ].
    exists 4; vm_compute; reflexivity. }
  assert (Hr : int64_fields example_telemetry)
    by (unfold int64_fields, int64; cbn; lia).
  refine (encoder_injective 32 example_state
            (<["round_timer" := 1]> example_state)
            example_telemetry example_telemetry _ Hv _ Hr Hr _ _).
  - destruct Hv as (Hf & He & Hc & Hp).
    split; [ | split; [exact He | split; [exact Hc | exact Hp]]].
    repeat split; vm_compute; reflexivity.
  - vm_compute. reflexivity.
  - vm_compute. reflexivity.
Defined.

(** Bounds of the enemy character id: an id of 8 or more, or below -8,
    raises [IndexError]; an id in -8..-1 is accepted and, by Python's
    negative indexing, encoded exactly as the id eight above it. *)
Theorem encoder_character_bounds (stateSize : Z) (step : gmap string Z)
    (t : Telemetry) :
  has_fields step t ->
  is_Ok (status_segment (t_enemy_status t)) = true ->
  (8 <= t_enemy_character t \/ t_enemy_character t < -8 ->
   prepareNetworkInputs stateSize step = Raise IndexError) /\
  (-8 <= t_enemy_character t < 0 ->
   prepareNetworkInputs stateSize step =
   prepareNetworkInputs stateSize
     (<["enemy_character" := t_enemy_character t + 8]> step)).
Proof.
  intros Hf Hes. split.
  - intros Hc. rewrite (prepareNetworkInputs_fields _ _ _ Hf).
    destruct (status_segment (t_enemy_status t)); [ | discriminate].
    cbn [mbind Res_bind]. unfold setitem. rewrite length_replicate.
    destruct (Z.leb_spec 0 (t_enemy_character t));
      destruct (Z.ltb_spec (t_enemy_character t) (Z.of_nat 8));
      destruct (Z.leb_spec (- Z.of_nat 8) (t_enemy_character t));
      destruct (Z.ltb_spec (t_enemy_character t) 0);
      cbn [andb]; try reflexivity; lia.
  - intros Hc.
    set (t' := mkTelemetry (t_enemy_health t) (t_enemy_x t) (t_enemy_y t)
                 (t_enemy_status t) (t_enemy_character t + 8)
                 (t_health t) (t_x t) (t_y t) (t_status t)).
    assert (Hf' : has_fields (<["enemy_character" := t_enemy_character t + 8]> step) t').
    { destruct Hf as (H1 & H2 & H3 & H4 & H5 & H6 & H7 & H8 & H9).
      unfold has_fields. subst t'. cbn.
      rewrite lookup_insert_eq, !lookup_insert_ne by discriminate.
      repeat split; assumption. }
    rewrite (prepareNetworkInputs_fields _ _ _ Hf),
      (prepareNetworkInputs_fields _ _ _ Hf').
    subst t'. cbn [t_enemy_health t_enemy_x t_enemy_y t_enemy_status
                   t_enemy_character t_health t_x t_y t_status].
    assert (Hset : setitem (replicate 8 0) (t_enemy_character t) 1 =
                   setitem (replicate 8 0) (t_enemy_character t + 8) 1).
    { unfold setitem. rewrite length_replicate.
      destruct (Z.leb_spec 0 (t_enemy_character t)); [lia | ].
      destruct (Z.leb_spec (- Z.of_nat 8) (t_enemy_character t)); [ | lia].
      destruct (Z.ltb_spec (t_enemy_character t) 0); [ | lia].
      destruct (Z.leb_spec 0 (t_enemy_character t + 8)); [ | lia].
      destruct (Z.ltb_spec (t_enemy_character t + 8) (Z.of_nat 8)); [ | lia].
      cbn [andb]. do 2 f_equal. lia. }
    rewrite Hset. reflexivity.
Qed.

Lemma encoder_character_bounds_witness :
  prepareNetworkInputs 32 (<["enemy_character" := 9]> example_state) =
    Raise IndexError /\
  prepareNetworkInputs 32 (<["enemy_character" := -1]> example_state) =
  prepareNetworkInputs 32
    (<["enemy_character" := -1 + 8]> (<["enemy_character" := -1]> example_state)).
Proof.
  split.
  - refine (proj1 (encoder_character_bounds 32
                     (<["enemy_character" := 9]> example_state)
                     (mkTelemetry 176 300 192 514 9 150 205 192 520) _ _) _).
    + repeat split; vm_compute; reflexivity.
    + vm_compute. reflexivity.
    + left. simpl. lia.
  - refine (proj2 (encoder_character_bounds 32
                     (<["enemy_character" := -1]> example_state)
                     (mkTelemetry 176 300 192 514 (-1) 150 205 192 520) _ _) _).
    + repeat split; vm_compute; reflexivity.
    + vm_compute. reflexivity.
    + simpl. lia.
Defined.

(** ** Move selection: range, side effects and failures *)

Lemma argmax_from_range {num : Type} {NU : Number num} (v : list num) :
  forall (best : num) (besti i : Z),
    0 <= besti < i ->
    0 <= argmax_from best besti i v < i + Z.of_nat (length v).
Proof.
  induction v as [ | x v IH]; intros best besti i Hb.
  - cbn. lia.
  - cbn [argmax_from length]. destruct (nisnan best); [lia | ].
    destruct (nltb best x || nisnan x).
    + specialize (IH x i (i + 1) ltac:(lia)). lia.
    + specialize (IH best besti (i + 1) ltac:(lia)). lia.
Qed.

Lemma argmax_range {num : Type} {NU : Number num} (v : list num) :
  v <> [] ->
  exists i, argmax v = Ok i /\ 0 <= i < Z.of_nat (length v).
Proof.
  destruct v as [ | x v]; [congruence | ]. intros _.
  eexists. split; [reflexivity | ].
  pose proof (argmax_from_range v x 0 1 ltac:(lia)) as H.
  cbn [length]. lia.
Qed.

Section MoreSelection.
Context {Obs num : Type} {NU : Number num} {AP : Approximator num}.
Implicit Types (self : Self Obs num) (w : World num).

(** A greedy move is a valid action index: on an agent that holds an
    answering environment, in an actionable state, with a draw above
    epsilon and telemetry the encoder accepts, [getMove] returns an index
    into the network's (non-empty) output row, and the network was asked
    exactly once, about the encoded telemetry. *)
Theorem greedy_move_in_range (obs : Obs) (info : gmap string Z) (t : Z)
    (x : list Z) env m self w :
  environment self = Some env ->
  get_action_meaning env 0 = Ok m ->
  info !! "round_timer" = Some t ->
  t <> 39208 ->
  nleb (np_rand w (np_pos w)) (epsilon self) = false ->
  prepareNetworkInputs (stateSize self) info = Ok x ->
  predict (model self) x <> [] ->
  exists i,
    fst (getMove obs info (self, w)) = Ok (VInt i) /\
    0 <= i < Z.of_nat (length (predict (model self) x)) /\
    predict_calls (snd (snd (getMove obs info (self, w)))) =
      predict_calls w ++ [x].
Proof.
  intros Henv Hm Ht Hne Hu Hx Hq.
  rewrite getMove_run, Henv, Hm, (getitem_Some _ _ _ Ht).
  destruct (Z.eqb_spec t 39208); [contradiction | ].
  cbn zeta. rewrite Hu, Hx.
  destruct (argmax_range _ Hq) as (i & Hi & Hr).
  exists i. rewrite Hi. cbn. auto.
Qed.

(** [getMove] never trains and never writes: whatever it returns or
    raises, the agent's attributes, the log of fitting calls, the files
    and the other generators are as before; it takes at most one random
    draw and asks the network at most once. *)
Theorem getMove_side_effects (obs : Obs) (info : gmap string Z) self w :
  let after := snd (getMove obs info (self, w)) in
  fst after = self /\
  fit_calls (snd after) = fit_calls w /\
  weights_files (snd after) = weights_files w /\
  log_files (snd after) = log_files w /\
  py_pos (snd after) = py_pos w /\
  space_pos (snd after) = space_pos w /\
  (np_pos w <= np_pos (snd after) <= S (np_pos w))%nat /\
  (length (predict_calls (snd after)) <= S (length (predict_calls w)))%nat.
Proof.
  cbn zeta. rewrite getMove_run.
  destruct (environment self) as [env | ]; cbn; [ | repeat split; lia].
  destruct (get_action_meaning env 0); cbn; [ | repeat split; lia].
  destruct (getitem info "round_timer") as [t | e]; cbn.
  - destruct (t =? 39208); cbn; [repeat split; lia | ].
    destruct (nleb (np_rand w (np_pos w)) (epsilon self)); cbn;
      [repeat split; lia | ].
    destruct (prepareNetworkInputs (stateSize self) info); cbn;
      [ | repeat split; lia].
    rewrite length_app. cbn. repeat split; lia.
  - repeat split; lia.
Qed.

(** Exploration fails in these sources: on an agent that holds an
    answering environment, in an actionable state, a draw that is [<=]
    epsilon makes [getMove] call [getRandomMove] without the action space
    its definition requires, which raises [TypeError]; the telemetry is
    not encoded and the network is not asked. *)
Theorem exploring_move_raises (obs : Obs) (info : gmap string Z) (t : Z)
    env m self w :
  environment self = Some env ->
  get_action_meaning env 0 = Ok m ->
  info !! "round_timer" = Some t ->
  t <> 39208 ->
  nleb (np_rand w (np_pos w)) (epsilon self) = true ->
  getMove obs info (self, w) =
  (Raise TypeError, (self, set_np_pos (S (np_pos w)) w)).
Proof.
  intros Henv Hm Ht Hne Hu.
  rewrite getMove_run, Henv, Hm, (getitem_Some _ _ _ Ht).
  destruct (Z.eqb_spec t 39208); [contradiction | ].
  cbn zeta. rewrite Hu. reflexivity.
Qed.

(** Failures of [getMove].  On an agent without an [environment]
    attribute every call raises [AttributeError] before the telemetry is
    read or a number drawn, and an exception of the environment's
    [get_action_meaning] is passed on likewise.  With an answering
    environment: telemetry without [round_timer] raises [KeyError] before
    any random draw; on the greedy branch telemetry the encoder rejects
    raises the encoder's exception without asking the network, and an
    empty output row raises [ValueError]. *)
Theorem getMove_failures (obs : Obs) (info : gmap string Z) self w :
  (environment self = None ->
   getMove obs info (self, w) = (Raise AttributeError, (self, w))) /\
  (forall env e,
     environment self = Some env -> get_action_meaning env 0 = Raise e ->
     getMove obs info (self, w) = (Raise e, (self, w))) /\
  (forall env m,
     environment self = Some env -> get_action_meaning env 0 = Ok m ->
     (info !! "round_timer" = None ->
      getMove obs info (self, w) = (Raise KeyError, (self, w))) /\
     (forall t e,
        info !! "round_timer" = Some t -> t <> 39208 ->
        nleb (np_rand w (np_pos w)) (epsilon self) = false ->
        prepareNetworkInputs (stateSize self) info = Raise e ->
        getMove obs info (self, w) =
        (Raise e, (self, set_np_pos (S (np_pos w)) w))) /\
     (forall t x,
        info !! "round_timer" = Some t -> t <> 39208 ->
        nleb (np_rand w (np_pos w)) (epsilon self) = false ->
        prepareNetworkInputs (stateSize self) info = Ok x ->
        predict (model self) x = [] ->
        fst (getMove obs info (self, w)) = Raise ValueError)).
Proof.
  split; [ | split].
  - intros Henv. rewrite getMove_run, Henv. reflexivity.
  - intros env e Henv He. rewrite getMove_run, Henv, He. reflexivity.
  - intros env m Henv Hm. split; [ | split].
    + intros Ht. rewrite getMove_run, Henv, Hm, (getitem_None _ _ Ht).
      reflexivity.
    + intros t e Ht Hne Hu He.
      rewrite getMove_run, Henv, Hm, (getitem_Some _ _ _ Ht).
      destruct (Z.eqb_spec t 39208); [contradiction | ].
      cbn zeta. rewrite Hu, He. reflexivity.
    + intros t x Ht Hne Hu Hx Hq.
      rewrite getMove_run, Henv, Hm, (getitem_Some _ _ _ Ht).
      destruct (Z.eqb_spec t 39208); [contradiction | ].
      cbn zeta. rewrite Hu, Hx, Hq. reflexivity.
Qed.

End MoreSelection.

Lemma greedy_move_in_range_witness :
  exists i,
    fst (getMove tt example_state
           (greedy_agent, example_world (fun _ => (1 # 2)%Q))) = Ok (VInt i) /\
    0 <= i < 3.
Proof.
  destruct (greedy_move_in_range tt example_state 9000
              (encoded 32 example_state) example_environment [] greedy_agent
              (example_world (fun _ => (1 # 2)%Q)))
    as (i & Hi & Hr & _).
  - reflexivity.
  - reflexivity.
  - vm_compute. reflexivity.
  - discriminate.
  - vm_compute. reflexivity.
  - vm_compute. reflexivity.
  - discriminate.
  - exists i. split; [exact Hi | exact Hr].
Defined.

Lemma exploring_move_raises_witness :
  fst (getMove tt example_state
         (fielded_agent, example_world (fun _ => (999 # 1000)%Q))) =
  Raise TypeError.
Proof.
  rewrite (exploring_move_raises tt example_state 9000 example_environment []
             fielded_agent (example_world (fun _ => (999 # 1000)%Q))).
  - reflexivity.
  - reflexivity.
  - reflexivity.
  - vm_compute. reflexivity.
  - discriminate.
  - vm_compute. reflexivity.
Defined.

Lemma getMove_failures_witness :
  getMove tt example_state (example_agent, quiet_world) =
    (Raise AttributeError, (example_agent, quiet_world)) /\
  getMove tt (delete "round_timer" example_state) (fielded_agent, quiet_world) =
    (Raise KeyError, (fielded_agent, quiet_world)) /\
  fst (getMove tt (delete "health" example_state)
         (greedy_agent, example_world (fun _ => (1 # 2)%Q))) = Raise KeyError.
Proof.
  split; [ | split].
  - apply (proj1 (getMove_failures tt example_state example_agent quiet_world)).
    reflexivity.
  - apply (proj1 (proj2 (proj2 (getMove_failures tt
                                  (delete "round_timer" example_state)
                                  fielded_agent quiet_world))
                    example_environment [] eq_refl eq_refl)).
    vm_compute. reflexivity.
  - rewrite (proj1 (proj2 (proj2 (proj2 (getMove_failures tt
                                           (delete "health" example_state)
                                           greedy_agent
                                           (example_world (fun _ => (1 # 2)%Q))))
                             example_environment [] eq_refl eq_refl))
               9000 KeyError).
    + reflexivity.
    + vm_compute. reflexivity.
    + discriminate.
    + vm_compute. reflexivity.
    + vm_compute. reflexivity.
Defined.

(** ** The base agent: sampling a move and recording it *)

Lemma deque_append_last {A} cap (d : list A) x :
  cap <> 0 -> last (deque_append cap d x) = Some x.
Proof.
  intros Hc. unfold deque_append.
  destruct (Z.eqb_spec cap 0); [contradiction | ].
  destruct (Z.of_nat (length d) =? cap); apply last_snoc.
Qed.

Section BaseAgent.
Context {Obs num : Type} {NU : Number num} {AP : Approximator num}.
Implicit Types (self : Self Obs num) (w : World num).

(** For the base agent, [getMove] returns [None], takes exactly one sample
    from the action space and remembers it; a [recordStep] that follows
    cannot fail and stores that sample as the action of the newest
    transition. *)
Theorem base_agent_records_its_move sp (obs : Obs) (info : gmap string Z)
    (o : Obs) s r (o' : Obs) s' dn self w :
  let moved := Agent_getMove sp obs info (self, w) in
  let recorded := recordStep o s r o' s' dn (snd moved) in
  fst moved = Ok tt /\
  space_pos (snd (snd moved)) = S (space_pos w) /\
  fst recorded = Ok tt /\
  last (memory (self_of recorded)) =
    Some (mkStep _ _ o s (sample_outcome sp (space_pos w)) r o' s' dn).
Proof.
  cbn zeta. split; [reflexivity | ]. split; [reflexivity | ].
  change (snd (Agent_getMove sp obs info (self, w)))
    with (set_lastAction (Some (sample_outcome sp (space_pos w))) self,
          set_space_pos (S (space_pos w)) w).
  rewrite recordStep_run. cbn [lastAction set_lastAction fst snd].
  split; [reflexivity | ].
  unfold self_of. cbn [fst snd memory set_memory set_lastAction].
  apply deque_append_last. discriminate.
Qed.

End BaseAgent.

(** ** Training pass: what it touches, and when *)

Section TrainingFrame.
Context {Obs num : Type} {NU : Number num} {AP : Approximator num}.
Implicit Types (self : Self Obs num) (w : World num).

Lemma same_settings_refl self : same_settings self self.
Proof. repeat split. Qed.

Lemma same_settings_trans self1 self2 self3 :
  same_settings self1 self2 -> same_settings self2 self3 ->
  same_settings self1 self3.
Proof.
  unfold same_settings. intros H1 H2. intuition congruence.
Qed.

Lemma train_step_frame (sample : Sample num) self w :
  let after := snd (train_step sample (self, w)) in
  same_settings self (fst after) /\ epsilon (fst after) = epsilon self /\
  weights_files (snd after) = weights_files w /\
  log_files (snd after) = log_files w.
Proof.
  destruct sample as [[[[state action] reward] done] next_state].
  cbn zeta. rewrite train_step_run. cbn zeta.
  destruct (td_target (model self) (gamma self)
              (state, action, reward, done, next_state));
    [ | destruct done; repeat split].
  destruct (setitem (predict (model self) state) action a);
    [ | destruct done; repeat split].
  destruct (reshape_row a0 (actionSize self));
    destruct done; repeat split.
Qed.

Lemma train_loop_frame (batch : list (Sample num)) : forall self w,
  let after := snd (for_each train_step batch (self, w)) in
  same_settings self (fst after) /\ epsilon (fst after) = epsilon self /\
  weights_files (snd after) = weights_files w /\
  log_files (snd after) = log_files w.
Proof.
  induction batch as [ | sample batch IH]; intros self w; cbn zeta.
  - cbn. repeat split.
  - assert (E : for_each train_step (sample :: batch) (self, w) =
                match train_step sample (self, w) with
                | (Ok _, st') => for_each train_step batch st'
                | (Raise e, st') => (Raise e, st')
                end) by reflexivity.
    rewrite E. clear E.
    pose proof (train_step_frame sample self w) as Hs. cbn zeta in Hs.
    destruct (train_step sample (self, w)) as [[[] | e] [self1 w1]];
      cbn [fst snd] in *.
    + specialize (IH self1 w1). cbn zeta in IH.
      destruct Hs as (Hs1 & Hs2 & Hs3 & Hs4).
      destruct IH as (Hi1 & Hi2 & Hi3 & Hi4).
      split; [eapply same_settings_trans; eassumption | ].
      split; [congruence | ]. split; congruence.
    + exact Hs.
Qed.

Lemma trainNetwork_effects (data : list (Sample num)) self w :
  let after := trainNetwork data (self, w) in
  same_settings self (self_of after) /\
  weights_files (world_of after) = weights_files w /\
  log_files (world_of after) = log_files w /\
  epsilon (self_of after) =
    match fst after with
    | Ok _ => decay_step (AP:=AP) (epsilonDecay self) (epsilon self)
    | Raise _ => epsilon self
    end.
Proof.
  cbn zeta. unfold trainNetwork, losses_clear. run_monad.
  destruct (random_sample_all (py_randbelow w) (py_pos w) data)
    as (batch & -> & _).
  cbn [fst snd].
  pose proof (train_loop_frame batch (set_lossHistory [] self)
                (set_py_pos (py_pos w + length data) w)) as Hl.
  cbn zeta in Hl.
  destruct (for_each train_step batch
              (set_lossHistory [] self, set_py_pos (py_pos w + length data) w))
    as [[[] | e] [self1 w1]]; cbn [fst snd] in *;
    destruct Hl as (Hs & He & Hw & Hlog); unfold self_of, world_of.
  - destruct Hs as (? & ? & ? & ? & ? & ? & Hd & ? & ?). cbn in *.
    unfold decay_step. rewrite <- He, <- Hd.
    destruct (nltb EPSILON_MIN (epsilon self1)); cbn;
      repeat split; assumption.
  - cbn. destruct Hs as (? & ? & ? & ? & ? & ? & ? & ? & ?). cbn in *.
    repeat split; assumption.
Qed.

(** A training pass touches only the model, the loss history and epsilon:
    whatever the data and whether or not the pass completes, the buffer,
    the name, the sizes, gamma, the decay factor and the environment are
    as before and no file is written.  Epsilon is updated only by a pass that completes
    (multiplied by the decay when above the minimum); a pass that raises
    leaves it as it was. *)
Theorem trainNetwork_frame (data : list (Sample num)) self w :
  let after := trainNetwork data (self, w) in
  same_settings self (self_of after) /\
  weights_files (world_of after) = weights_files w /\
  log_files (world_of after) = log_files w /\
  epsilon (self_of after) =
    match fst after with
    | Ok _ => decay_step (AP:=AP) (epsilonDecay self) (epsilon self)
    | Raise _ => epsilon self
    end.
Proof. exact (trainNetwork_effects data self w). Qed.

End TrainingFrame.

Section ActionIndex.
Context {Obs num : Type} {NU : Number num} {AP : Approximator num}.
Implicit Types (self : Self Obs num) (w : World num).

(** The action index of a training point, against the [n] outputs of the
    network: an index of [n] or more, or below [-n], makes the iteration
    raise [IndexError] after its predictions, with no fitting step and the
    agent untouched; an index in [-n .. -1] is accepted and, by NumPy's
    negative indexing, trains exactly as the index [n] above it. *)
Theorem train_step_action_bounds state action reward done next_state self w :
  let n := Z.of_nat (length (predict (model self) state)) in
  (done = false -> predict (model self) next_state <> []) ->
  (n <= action \/ action < - n ->
   let after := train_step (state, action, reward, done, next_state) (self, w) in
   fst after = Raise IndexError /\ self_of after = self /\
   fit_calls (world_of after) = fit_calls w) /\
  (- n <= action < 0 ->
   train_step (state, action, reward, done, next_state) (self, w) =
   train_step (state, action + n, reward, done, next_state) (self, w)).
Proof.
  intros n Hnext.
  assert (Htgt : exists tgt, forall a,
            td_target (model self) (gamma self)
              (state, a, reward, done, next_state) = Ok tgt).
  { unfold td_target. destruct done; [eexists; reflexivity | ].
    destruct (amax_nonempty _ (Hnext eq_refl)) as [best ->].
    eexists. reflexivity. }
  destruct Htgt as [tgt Htgt].
  split.
  - intros Hout. cbn zeta. rewrite train_step_run, Htgt. cbn zeta.
    assert (Hset : setitem (predict (model self) state) action tgt =
                   Raise IndexError).
    { unfold setitem. fold n.
      destruct (Z.leb_spec 0 action); destruct (Z.ltb_spec action n);
        destruct (Z.leb_spec (- n) action); destruct (Z.ltb_spec action 0);
        cbn [andb]; try reflexivity; lia. }
    rewrite Hset. unfold self_of, world_of.
    destruct done; repeat split.
  - intros Hneg. rewrite !train_step_run, !Htgt. cbn zeta.
    assert (Hset : setitem (predict (model self) state) action tgt =
                   setitem (predict (model self) state) (action + n) tgt).
    { unfold setitem. fold n.
      destruct (Z.leb_spec 0 action); [lia | ].
      destruct (Z.leb_spec (- n) action); [ | lia].
      destruct (Z.ltb_spec action 0); [ | lia].
      destruct (Z.leb_spec 0 (action + n)); [ | lia].
      destruct (Z.ltb_spec (action + n) n); [ | lia].
      cbn [andb]. do 2 f_equal. lia. }
    rewrite Hset. reflexivity.
Qed.

End ActionIndex.

Lemma train_step_action_bounds_witness :
  fst (train_step ([], 3, 1%Q, true, []) (example_agent, quiet_world)) =
    Raise IndexError /\
  train_step ([], -1, 1%Q, true, []) (example_agent, quiet_world) =
  train_step ([], -1 + 3, 1%Q, true, []) (example_agent, quiet_world).
Proof.
  split.
  - refine (proj1 (proj1 (train_step_action_bounds [] 3 1%Q true []
                            example_agent quiet_world _) _)).
    + discriminate.
    + left. vm_compute. discriminate.
  - refine (proj2 (train_step_action_bounds [] (-1) 1%Q true []
                     example_agent quiet_world _) _).
    + discriminate.
    + vm_compute. split; [discriminate | reflexivity].
Defined.

(** ** The review cycle: checkpoint, log and failure *)

Section ReviewEffects.
Context {Obs num : Type} {NU : Number num} {AP : Approximator num}.
Implicit Types (self : Self Obs num) (w : World num).

Lemma prepare_loop_raises self (steps : list (Step Obs num)) :
  Exists (fun step => ~ step_encodable (stateSize self) step) steps ->
  forall data, exists e, prepare_loop self steps data = Raise e.
Proof.
  induction steps as [ | step steps IH]; intros Hex data.
  - inversion Hex.
  - cbn [prepare_loop].
    destruct (prepareNetworkInputs (stateSize self) (step_state step)) eqn:Hs;
      cbn [mbind Res_bind]; [ | eexists; reflexivity].
    destruct (prepareNetworkInputs (stateSize self) (step_nextState step)) eqn:Hn;
      cbn [mbind Res_bind]; [ | eexists; reflexivity].
    apply IH. inversion Hex as [? ? Hbad | ? ? Htail]; subst; [ | exact Htail].
    exfalso. apply Hbad. unfold step_encodable, encodable.
    rewrite Hs, Hn. split; reflexivity.
Qed.

(** A review that meets a buffered step the encoder rejects fails before
    anything happens: no prediction, no fitting step, no file, and the
    buffer is kept as it was. *)
Theorem review_fails_without_effect self w :
  Exists (fun step => ~ step_encodable (stateSize self) step) (memory self) ->
  exists e, reviewFight (self, w) = (Raise e, (self, w)).
Proof.
  intros Hex.
  destruct (prepare_loop_raises self (memory self) Hex []) as [e He].
  exists e. unfold reviewFight, prepareMemoryForTraining. run_monad.
  rewrite He. reflexivity.
Qed.

End ReviewEffects.

Section ReviewCheckpoint.
Context {Obs num : Type} {NU : Number num} {AP : Approximator num}.
Implicit Types (self : Self Obs num) (w : World num).

(** A review that completes leaves a checkpoint of the model as trained
    (the weights file holds the agent's model after the pass) and appends
    to the log exactly one line, the sum of this review's losses, one per
    buffered transition, divided by their number; other files are
    untouched. *)
Theorem review_checkpoints_trained_model cols self w :
  net_ok cols -> 0 < cols -> actionSize self = cols ->
  Forall (fun step => 0 <= step_action step < cols) (memory self) ->
  Forall (step_encodable (stateSize self)) (memory self) ->
  memory self <> [] ->
  let after := reviewFight (self, w) in
  let mpath := path_join DEFAULT_MODELS_DIR_PATH (getModelName self) in
  let lpath := path_join DEFAULT_LOGS_DIR_PATH (getLogsName self) in
  fst after = Ok tt /\
  weights_files (world_of after) !! mpath = Some (model (self_of after)) /\
  length (lossHistory (self_of after)) = length (memory self) /\
  log_files (world_of after) !! lpath =
    Some (default [] (log_files w !! lpath)
          ++ [ndiv (py_sum (lossHistory (self_of after)))
                   (of_int (Z.of_nat (length (memory self))))]) /\
  (forall p, p <> mpath ->
     weights_files (world_of after) !! p = weights_files w !! p) /\
  (forall p, p <> lpath -> log_files (world_of after) !! p = log_files w !! p).
Proof.
  intros Hnet Hpos Hcols Hact Henc Hne.
  set (data := map (prepared (stateSize self)) (memory self)).
  assert (Hdata : Forall (fun sample => 0 <= sample_action sample < cols) data).
  { subst data. apply Forall_map. exact Hact. }
  destruct (trainNetwork_run cols data self w Hnet Hpos Hdata Hcols)
    as (batch & self1 & w1 & Hrun & Hperm & Hfits & Hloss & Hmem & Hname
        & Heps & Hw & Hl).
  cbn zeta.
  unfold reviewFight, prepareMemoryForTraining, prepareForNextFight. run_monad.
  rewrite (prepare_loop_ok self (memory self) Henc []). cbn [app fst snd].
  fold data. rewrite Hrun. cbn [fst snd].
  rewrite saveModel_run. cbn zeta.
  assert (Hlen : length (lossHistory self1) = length (memory self))
    by (rewrite Hloss; subst data; apply length_map).
  unfold truediv.
  destruct (Z.eqb_spec (Z.of_nat (length (lossHistory self1))) 0) as [E | _].
  { rewrite Hlen in E. destruct (memory self); [congruence | simpl in E; lia]. }
  unfold self_of, world_of, getModelName, getLogsName. cbn [fst snd].
  rewrite Hname, Hlen.
  unfold write_line, open_append.
  cbn [log_files weights_files set_log_files set_weights_files model
       lossHistory set_memory].
  rewrite Hw, Hl.
  split; [reflexivity | ].
  split; [apply lookup_insert_eq | ].
  split; [exact Hlen | ].
  split.
  { rewrite lookup_insert_eq, lookup_insert_eq. reflexivity. }
  split.
  - intros p Hp. rewrite lookup_insert_ne by congruence. reflexivity.
  - intros p Hp. rewrite !lookup_insert_ne by congruence. reflexivity.
Qed.

End ReviewCheckpoint.

Lemma review_fails_without_effect_witness :
  let bad := mkFrame tt (delete "health" example_state) 1%Q tt example_state true in
  let self := set_memory [step_of 1 bad] recording_agent in
  exists e, reviewFight (self, quiet_world) = (Raise e, (self, quiet_world)).
Proof.
  cbn zeta.
  apply (review_fails_without_effect
           (set_memory
              [step_of 1 (mkFrame tt (delete "health" example_state) 1%Q tt
                            example_state true)] recording_agent)
           quiet_world).
  apply Exists_cons_hd. intros [Hs _]. vm_compute in Hs. discriminate Hs.
Defined.

Lemma review_checkpoints_trained_model_witness :
  let self := set_memory (map (step_of 1) example_frames) recording_agent in
  let after := reviewFight (self, quiet_world) in
  fst after = Ok tt /\
  weights_files (world_of after) !! "../models/DeepQAgentModel" =
    Some (model (self_of after)) /\
  length (lossHistory (self_of after)) = 3%nat.
Proof.
  cbn zeta.
  destruct (review_checkpoints_trained_model 3
              (set_memory (map (step_of 1) example_frames) recording_agent)
              quiet_world) as (Hok & Hw & Hlen & _).
  - exact counting_net_ok.
  - lia.
  - reflexivity.
  - repeat constructor; vm_compute; discriminate.
  - repeat constructor; vm_compute; reflexivity.
  - discriminate.
  - split; [exact Hok | ]. split; [exact Hw | exact Hlen].
Defined.

(** ** The buffer bound across operations *)

Section BufferInvariant.
Context {Obs num : Type} {NU : Number num} {AP : Approximator num}.
Implicit Types (self : Self Obs num) (w : World num).

Lemma reviewFight_memory self w :
  memory (self_of (reviewFight (self, w))) = [] \/
  memory (self_of (reviewFight (self, w))) = memory self.
Proof.
  unfold reviewFight, prepareMemoryForTraining, prepareForNextFight. run_monad.
  destruct (prepare_loop self (memory self) []) as [data | e];
    cbn [fst snd]; [ | right; reflexivity].
  pose proof (trainNetwork_effects data self w) as Ht. cbn zeta in Ht.
  unfold self_of, world_of in Ht.
  destruct (trainNetwork data (self, w)) as [[[] | e] [self1 w1]];
    cbn [fst snd] in *; destruct Ht as ((_ & Hmem & _) & _).
  - rewrite saveModel_run. cbn zeta.
    destruct (truediv (py_sum (lossHistory self1))
                (Z.of_nat (length (lossHistory self1))));
      unfold self_of; cbn [fst snd]; [left; reflexivity | right; exact Hmem].
  - right. exact Hmem.
Qed.

(** The capacity bound is an invariant of the agent: whatever their
    arguments and whether they return or raise, [recordStep], both
    [getMove]s, [trainNetwork] and [reviewFight] leave a buffer of at most
    [MAX_DATA_LENGTH] transitions when they start from one. *)
Theorem buffer_bound_invariant self w :
  Z.of_nat (length (memory self)) <= MAX_DATA_LENGTH ->
  (forall (o : Obs) s r (o' : Obs) s' dn,
     Z.of_nat (length (memory (self_of (recordStep o s r o' s' dn (self, w)))))
     <= MAX_DATA_LENGTH) /\
  (forall (obs : Obs) info,
     Z.of_nat (length (memory (fst (snd (getMove obs info (self, w))))))
     <= MAX_DATA_LENGTH) /\
  (forall sp (obs : Obs) info,
     Z.of_nat (length (memory (self_of (Agent_getMove sp obs info (self, w)))))
     <= MAX_DATA_LENGTH) /\
  (forall data,
     Z.of_nat (length (memory (self_of (trainNetwork data (self, w)))))
     <= MAX_DATA_LENGTH) /\
  Z.of_nat (length (memory (self_of (reviewFight (self, w))))) <= MAX_DATA_LENGTH.
Proof.
  intros Hcap. repeat split.
  - intros. rewrite recordStep_run. unfold self_of.
    destruct (lastAction self); cbn [fst snd]; [ | exact Hcap].
    apply deque_append_length; [reflexivity | exact Hcap].
  - intros. rewrite getMove_keeps_self. exact Hcap.
  - intros. exact Hcap.
  - intros data. destruct (trainNetwork_effects data self w) as ((_ & -> & _) & _).
    exact Hcap.
  - destruct (reviewFight_memory self w) as [-> | ->];
      [unfold MAX_DATA_LENGTH; simpl; lia | exact Hcap].
Qed.

End BufferInvariant.

Lemma buffer_bound_invariant_witness :
  Z.of_nat (length (memory (self_of (reviewFight (recording_agent, quiet_world)))))
  <= MAX_DATA_LENGTH.
Proof.
  apply (buffer_bound_invariant recording_agent quiet_world).
  vm_compute. discriminate.
Defined.

(** ** The exploration rate over any number of passes *)

Section EpsilonInvariant.
Context {Obs num : Type} {NU : Number num} {AP : Approximator num}.
Implicit Types (self : Self Obs num) (w : World num).

Lemma repeat_passes_S n (data : list (Sample num)) self w :
  repeat_passes (S n) data (self, w) =
  match trainNetwork data (self, w) with
  | (Ok _, st') => repeat_passes n data st'
  | (Raise e, st') => (Raise e, st')
  end.
Proof. reflexivity. Qed.

(** Any property of the exploration rate that one decay step preserves is
    preserved by any number of passes, whether they complete or raise. *)
Lemma repeat_passes_epsilon (P : num -> Prop) (d : num) (data : list (Sample num)) :
  (forall e, P e -> P (decay_step (AP:=AP) d e)) ->
  forall n self w,
    epsilonDecay self = d -> P (epsilon self) ->
    P (epsilon (self_of (repeat_passes n data (self, w)))).
Proof.
  intros Hstep. induction n as [ | n IH]; intros self w Hd HP; [exact HP | ].
  rewrite repeat_passes_S.
  pose proof (trainNetwork_effects data self w) as Ht. cbn zeta in Ht.
  unfold self_of, world_of in Ht.
  destruct (trainNetwork data (self, w)) as [[[] | e] [self1 w1]];
    cbn [fst snd] in Ht;
    destruct Ht as ((_ & _ & _ & _ & _ & _ & Hdec & _) & _ & _ & Heps).
  - apply IH; [congruence | ]. rewrite Heps, Hd. apply Hstep. exact HP.
  - unfold self_of. cbn [fst snd]. rewrite Heps. exact HP.
Qed.

(** An agent at the minimum exploration rate (the rate the constructor
    assigns when [load] is set) keeps exactly that rate through any number
    of training passes, whatever the data and whether the passes complete
    or raise. *)
Theorem minimum_rate_is_kept {NO : NumberOrder num}
    (n : nat) (data : list (Sample num)) self w :
  epsilon self = EPSILON_MIN ->
  epsilon (self_of (repeat_passes n data (self, w))) = EPSILON_MIN.
Proof.
  intros Hmin.
  apply (repeat_passes_epsilon (fun e => e = EPSILON_MIN) (epsilonDecay self)).
  - intros e ->. unfold decay_step. rewrite nltb_irrefl. reflexivity.
  - reflexivity.
  - exact Hmin.
Qed.

End EpsilonInvariant.

Lemma minimum_rate_is_kept_witness :
  epsilon (self_of (repeat_passes 3 []
                      (set_epsilon EPSILON_MIN example_agent, quiet_world)))
  = (EPSILON_MIN : Q).
Proof.
  apply (minimum_rate_is_kept 3 [] (set_epsilon EPSILON_MIN example_agent)
           quiet_world).
  reflexivity.
Defined.

Lemma decay_step_bounds {AP : Approximator Q} (d e top : Q) :
  (0 <= d)%Q -> (d <= 1)%Q ->
  (EPSILON_MIN * d <= e)%Q -> (e <= top)%Q ->
  (EPSILON_MIN * d <= decay_step (AP:=AP) d e)%Q /\
  (decay_step (AP:=AP) d e <= top)%Q.
Proof.
  intros Hd0 Hd1 Hlo Hhi. unfold decay_step. cbn [nltb nmul Q_Number].
  destruct (Qltb EPSILON_MIN e) eqn:E; [ | split; assumption].
  apply Qltb_true in E.
  assert (Hmin : (0 < EPSILON_MIN)%Q) by reflexivity.
  assert (He : (0 < e)%Q) by (eapply Qlt_trans; eassumption).
  split.
  - apply Qmult_le_compat_r; [apply Qlt_le_weak; exact E | exact Hd0].
  - apply Qle_trans with e; [ | exact Hhi].
    rewrite <- (Qmult_1_r e) at 2.
    apply Qmult_le_l; assumption.
Qed.

(** In exact arithmetic, for a decay factor in [0, 1]: over any number of
    training passes (completed or not, on any data) the exploration rate
    never rises above its starting value and never falls below
    [EPSILON_MIN * decay], the value one decay step under the documented
    minimum. *)
Theorem epsilon_stays_in_band {Obs : Type} {AP : Approximator Q}
    (self : Self Obs Q) (w : World Q) (n : nat) (data : list (Sample Q)) :
  (0 <= epsilonDecay self)%Q -> (epsilonDecay self <= 1)%Q ->
  (EPSILON_MIN * epsilonDecay self <= epsilon self)%Q ->
  let after := epsilon (self_of (repeat_passes n data (self, w))) in
  (EPSILON_MIN * epsilonDecay self <= after)%Q /\ (after <= epsilon self)%Q.
Proof.
  intros Hd0 Hd1 Hlo. cbn zeta.
  apply (repeat_passes_epsilon
           (fun e => (EPSILON_MIN * epsilonDecay self <= e)%Q /\
                     (e <= epsilon self)%Q)
           (epsilonDecay self)).
  - intros e [H1 H2]. apply decay_step_bounds; assumption.
  - reflexivity.
  - split; [exact Hlo | apply Qle_refl].
Qed.

Lemma epsilon_stays_in_band_witness :
  let after := epsilon (self_of (repeat_passes 5 [] (example_agent, quiet_world))) in
  (EPSILON_MIN * (999 # 1000) <= after)%Q /\ (after <= inject_Z 1)%Q.
Proof.
  cbn zeta.
  refine (epsilon_stays_in_band example_agent quiet_world 5 [] _ _ _);
    vm_compute; discriminate.
Defined.

(** ** Listing the save states *)

Lemma split_dot_nonempty s : split_dot s <> [].
Proof.
  destruct s as [ | c rest]; cbn; [discriminate | ].
  destruct (Ascii.eqb c "."%char); [discriminate | ].
  destruct (split_dot rest); discriminate.
Qed.

Lemma split_dot_dot_free s : dot_free s = true -> split_dot s = [s].
Proof.
  induction s as [ | c rest IH]; cbn; [reflexivity | ].
  destruct (Ascii.eqb c "."%char); cbn; [discriminate | ].
  intros H. rewrite (IH H). reflexivity.
Qed.

Lemma split_dot_file_name a b :
  dot_free a = true -> split_dot (file_name (a, b)) = a :: split_dot b.
Proof.
  change (file_name (a, b)) with (a +:+ String "."%char b).
  induction a as [ | c rest IH]; [reflexivity | ].
  intros H. cbn [dot_free] in H.
  change (split_dot (String c rest +:+ String "."%char b))
    with (if Ascii.eqb c "."%char
          then EmptyString :: split_dot (rest +:+ String "."%char b)
          else match split_dot (rest +:+ String "."%char b) with
               | piece :: pieces => String c piece :: pieces
               | [] => [String c EmptyString]
               end).
  destruct (Ascii.eqb c "."%char); [discriminate | ].
  rewrite (IH H). reflexivity.
Qed.

Lemma split_dot_pieces s : Forall (fun piece => dot_free piece = true) (split_dot s).
Proof.
  induction s as [ | c rest IH]; cbn; [repeat constructor | ].
  destruct (Ascii.eqb c "."%char) eqn:E; [constructor; [reflexivity | exact IH] | ].
  destruct (split_dot rest) as [ | piece pieces];
    [repeat constructor; cbn; rewrite E; reflexivity | ].
  inversion IH as [ | ? ? Hp Hps]; subst.
  constructor; [cbn; rewrite E, Hp; reflexivity | exact Hps].
Qed.

Lemma join_split_dot s : join_dot (split_dot s) = s.
Proof.
  induction s as [ | c rest IH]; [reflexivity | ]. cbn [split_dot].
  destruct (Ascii.eqb_spec c "."%char) as [-> | Hne].
  - pose proof (split_dot_nonempty rest) as Hn.
    destruct (split_dot rest) as [ | piece pieces]; [congruence | ].
    change (join_dot (EmptyString :: piece :: pieces))
      with (EmptyString +:+ "." +:+ join_dot (piece :: pieces)).
    rewrite IH. reflexivity.
  - pose proof (split_dot_nonempty rest) as Hn.
    destruct (split_dot rest) as [ | piece pieces]; [congruence | ].
    rewrite <- IH. destruct pieces; reflexivity.
Qed.

Lemma list_getitem_0 {A} (x : A) l : list_getitem (x :: l) 0 = Ok x.
Proof.
  unfold list_getitem. cbn [length].
  destruct (Z.ltb_spec 0 (Z.of_nat (S (length l)))); [reflexivity | lia].
Qed.

Lemma list_getitem_1 {A} (x y : A) l : list_getitem (x :: y :: l) 1 = Ok y.
Proof.
  unfold list_getitem. cbn [length].
  destruct (Z.ltb_spec 1 (Z.of_nat (S (S (length l))))); [reflexivity | lia].
Qed.

Lemma list_getitem_1_short {A} (x : A) : list_getitem [x] 1 = Raise IndexError.
Proof. reflexivity. Qed.

Lemma list_getitem_raises {A} (l : list A) i e :
  list_getitem l i = Raise e -> e = IndexError.
Proof.
  unfold list_getitem.
  destruct ((0 <=? i) && (i <? Z.of_nat (length l))).
  - destruct (l !! Z.to_nat i); [discriminate | intros [= <-]; reflexivity].
  - destruct ((- Z.of_nat (length l) <=? i) && (i <? 0)).
    + destruct (l !! Z.to_nat (Z.of_nat (length l) + i));
        [discriminate | intros [= <-]; reflexivity].
    + intros [= <-]. reflexivity.
Qed.

(** A listing that holds a name without a dot makes [getStates] raise
    [IndexError], whatever the other names are. *)
Theorem getStates_dotless_name (listing : list string) (file : string) :
  In file listing -> dot_free file = true ->
  getStates listing = Raise IndexError.
Proof.
  unfold getStates. generalize (@nil string) as states.
  induction listing as [ | f rest IH]; intros states Hin Hfree; [destruct Hin | ].
  cbn [getStates_loop].
  destruct (list_getitem (split_dot f) 1) as [ext | e] eqn:Hext;
    cbn [mbind Res_bind];
    [ | apply list_getitem_raises in Hext; subst; reflexivity].
  destruct Hin as [-> | Hin].
  - rewrite (split_dot_dot_free _ Hfree), list_getitem_1_short in Hext.
    discriminate.
  - pose proof (split_dot_nonempty f) as Hn.
    destruct (split_dot f) as [ | stem pieces]; [congruence | ].
    rewrite list_getitem_0. cbn [mbind Res_bind].
    destruct (String.eqb ext "state"); apply IH; assumption.
Qed.

Lemma getStates_dotless_name_witness :
  getStates ["chunli.state"; "README"; "ryu.state"] = Raise IndexError.
Proof.
  apply (getStates_dotless_name _ "README").
  - simpl. auto.
  - reflexivity.
Defined.

(** On a listing of names [stem.ext] with dot-free stems and extensions,
    [getStates] returns the stems of the names whose extension is
    [state], in listing order, and nothing else. *)
Theorem getStates_selects_state_files (entries : list (string * string)) :
  Forall (fun entry => dot_free (fst entry) = true /\
                       dot_free (snd entry) = true) entries ->
  getStates (map file_name entries) =
  Ok (map fst (List.filter (fun entry => String.eqb (snd entry) "state") entries)).
Proof.
  intros Hall. unfold getStates.
  change (map fst (List.filter (fun entry => String.eqb (snd entry) "state") entries))
    with ([] ++ map fst (List.filter (fun entry => String.eqb (snd entry) "state")
                           entries)).
  generalize (@nil string) as states.
  induction Hall as [ | [stem ext] entries [Hs He] _ IH]; intros states.
  - cbn. rewrite app_nil_r. reflexivity.
  - cbn [map getStates_loop List.filter fst snd] in *.
    rewrite (split_dot_file_name _ _ Hs), (split_dot_dot_free _ He).
    rewrite list_getitem_1, list_getitem_0. cbn [mbind Res_bind].
    destruct (String.eqb ext "state").
    + rewrite IH. cbn [map fst]. rewrite <- app_assoc. reflexivity.
    + apply IH.
Qed.

Lemma getStates_selects_state_files_witness :
  getStates ["chunli.state"; "data.json"; "ryu.state"; "rom.md"] =
  Ok ["chunli"; "ryu"].
Proof.
  apply (getStates_selects_state_files
           [("chunli", "state"); ("data", "json"); ("ryu", "state"); ("rom", "md")]).
  repeat constructor.
Defined.

Lemma getStates_loop_names (L : list string) (states : list string) :
  forall rest acc,
    (forall f, In f rest -> In f L) ->
    Forall (fun name =>
              dot_free name = true /\
              exists file tail, In file L /\ file = name +:+ ".state" +:+ tail)
           acc ->
    getStates_loop rest acc = Ok states ->
    Forall (fun name =>
              dot_free name = true /\
              exists file tail, In file L /\ file = name +:+ ".state" +:+ tail)
           states.
Proof.
  induction rest as [ | f rest IH]; intros acc Hsub Hacc Hrun.
  - cbn in Hrun. injection Hrun as <-. exact Hacc.
  - cbn [getStates_loop] in Hrun.
    pose proof (split_dot_pieces f) as Hpieces.
    pose proof (join_split_dot f) as Hjoin.
    destruct (split_dot f) as [ | stem [ | ext pieces]];
      try discriminate Hrun.
    rewrite list_getitem_1, list_getitem_0 in Hrun. cbn [mbind Res_bind] in Hrun.
    assert (Hrest : forall g, In g rest -> In g L)
      by (intros g Hg; apply Hsub; right; exact Hg).
    destruct (String.eqb_spec ext "state") as [-> | Hne];
      [ | exact (IH acc Hrest Hacc Hrun)].
    apply (IH (acc ++ [stem]) Hrest); [ | exact Hrun].
    apply Forall_app. split; [exact Hacc | ].
    constructor; [ | constructor].
    pose proof (Forall_inv Hpieces) as Hstem. cbn beta in Hstem.
    split; [exact Hstem | ].
    exists f. destruct pieces as [ | piece pieces].
    + exists EmptyString. split; [apply Hsub; left; reflexivity | ].
      rewrite <- Hjoin. reflexivity.
    + exists ("." +:+ join_dot (piece :: pieces)).
      split; [apply Hsub; left; reflexivity | ].
      rewrite <- Hjoin. reflexivity.
Qed.

(** Every name [getStates] returns is free of dots and is the stem of a
    listed file whose name continues with [.state]. *)
Theorem getStates_names_listed (listing states : list string) :
  getStates listing = Ok states ->
  Forall (fun name =>
            dot_free name = true /\
            exists file tail,
              In file listing /\ file = name +:+ ".state" +:+ tail) states.
Proof.
  intros Hrun.
  apply (getStates_loop_names listing states listing []);
    [auto | constructor | exact Hrun].
Qed.

Lemma getStates_names_listed_witness :
  Forall (fun name =>
            dot_free name = true /\
            exists file tail,
              In file ["chunli.state.bak"; "ryu.v2.state"]
              /\ file = name +:+ ".state" +:+ tail) ["chunli"].
Proof.
  apply (getStates_names_listed ["chunli.state.bak"; "ryu.v2.state"] ["chunli"]).
  reflexivity.
Defined.

(** ** The Huber loss *)

Lemma Qabs_cases (e : Q) :
  (0 <= Qabs e)%Q /\ (Qabs e * Qabs e == e * e)%Q /\
  ((0 <= e)%Q /\ (Qabs e == e)%Q \/ (e <= 0)%Q /\ (Qabs e == - e)%Q).
Proof.
  split; [apply Qabs_nonneg | ].
  apply (Qabs_case e (fun a => (a * a == e * e)%Q /\
                               ((0 <= e)%Q /\ (a == e)%Q \/
                                (e <= 0)%Q /\ (a == - e)%Q))).
  - intros H. split; [reflexivity | left; split; [exact H | reflexivity]].
  - intros H. split; [ring | right; split; [exact H | reflexivity]].
Qed.

Lemma huber_cond (d e : Q) :
  (Qle_bool (Qabs e) d = true /\ (Qabs e <= d)%Q) \/
  (Qle_bool (Qabs e) d = false /\ (d < Qabs e)%Q).
Proof.
  destruct (Qle_bool (Qabs e) d) eqn:E.
  - left. split; [reflexivity | apply Qle_bool_iff; exact E].
  - right. split; [reflexivity | ].
    apply Qnot_le_lt. intros H. apply Qle_bool_iff in H. congruence.
Qed.

Lemma huber_terms_nonneg d y p : (0 <= d)%Q -> (0 <= huber_terms d y p)%Q.
Proof.
  intros Hd. unfold huber_terms.
  destruct (Qabs_cases (y - p)) as (Ha & Hsq & _).
  destruct (huber_cond d (y - p)) as [[-> Hc] | [-> Hc]].
  - rewrite <- Hsq. nra.
  - nra.
Qed.

Lemma huber_terms_diag d : (0 <= d)%Q -> forall y, (huber_terms d y y == 0)%Q.
Proof.
  intros Hd y. unfold huber_terms.
  destruct (Qabs_cases (y - y)) as (Ha & Hsq & Hcase).
  destruct (huber_cond d (y - y)) as [[-> Hc] | [-> Hc]]; [ring | ].
  assert (Qabs (y - y) == 0)%Q by (destruct Hcase as [[_ H] | [_ H]]; lra).
  lra.
Qed.

Lemma huber_terms_sym d y p : (huber_terms d y p == huber_terms d p y)%Q.
Proof.
  unfold huber_terms.
  assert (Habs : (Qabs (y - p) == Qabs (p - y))%Q).
  { rewrite <- (Qabs_opp (p - y)). apply Qabs_wd. ring. }
  destruct (huber_cond d (y - p)) as [[-> Hc] | [-> Hc]];
    destruct (huber_cond d (p - y)) as [[-> Hc'] | [-> Hc']];
    try lra; nra.
Qed.

Lemma Qsum_cons (x : Q) (l : list Q) : Qsum (x :: l) = (x + Qsum l)%Q.
Proof. reflexivity. Qed.

Lemma Qsum_nonneg (l : list Q) : Forall (fun x => (0 <= x)%Q) l -> (0 <= Qsum l)%Q.
Proof.
  induction 1 as [ | x l Hx _ IH]; [apply Qle_refl | ].
  rewrite Qsum_cons. lra.
Qed.

Lemma Qsum_pointwise (l1 l2 : list Q) :
  Forall2 Qeq l1 l2 -> (Qsum l1 == Qsum l2)%Q.
Proof.
  induction 1 as [ | x y l1 l2 Hxy _ IH]; [reflexivity | ].
  rewrite !Qsum_cons, Hxy, IH. reflexivity.
Qed.

Lemma Qsum_diag (h : Q -> Q -> Q) (q : list Q) :
  (forall x, (h x x == 0)%Q) -> (Qsum (zip_with h q q) == 0)%Q.
Proof.
  intros Hh. induction q as [ | x q IH]; [reflexivity | ].
  cbn [zip_with]. rewrite Qsum_cons, Hh, IH. reflexivity.
Qed.

Lemma Qsum_one_off (h : Q -> Q -> Q) (q : list Q) :
  (forall x, (h x x == 0)%Q) ->
  forall (a : nat) (qa t : Q),
    q !! a = Some qa ->
    (Qsum (zip_with h (<[a := t]> q) q) == h t qa)%Q.
Proof.
  intros Hh. induction q as [ | x q IH]; intros a qa t Ha; [discriminate | ].
  destruct a as [ | a].
  - injection Ha as ->.
    change (<[0%nat := t]> (qa :: q)) with (t :: q).
    cbn [zip_with]. rewrite Qsum_cons, (Qsum_diag h q Hh). ring.
  - change (<[S a := t]> (x :: q)) with (x :: <[a := t]> q).
    change ((x :: q) !! S a) with (q !! a) in Ha.
    cbn [zip_with]. rewrite Qsum_cons, Hh, (IH a qa t Ha). ring.
Qed.

Lemma positive_length {A} (l : list A) :
  l <> [] -> (0 < inject_Z (Z.of_nat (length l)))%Q.
Proof.
  intros Hne. destruct l; [congruence | ].
  change 0%Q with (inject_Z 0). rewrite <- Zlt_Qlt. cbn [length]. lia.
Qed.

(** The loss is never negative, and it is zero when prediction and target
    coincide (for a clip delta that is not negative and tensors of one
    shape that are not empty). *)
Theorem huber_loss_nonneg (y_true y_pred : list Q) (clip_delta : Q) :
  (0 <= clip_delta)%Q ->
  y_true <> [] ->
  length y_pred = length y_true ->
  (0 <= _huber_loss y_true y_pred clip_delta)%Q /\
  (_huber_loss y_true y_true clip_delta == 0)%Q.
Proof.
  intros Hd Hne _. unfold _huber_loss, Qmean. split.
  - unfold Qdiv. apply Qmult_le_0_compat.
    + apply Qsum_nonneg. revert y_pred. clear Hne.
      induction y_true as [ | y ys IH]; intros [ | p ps]; cbn;
        try constructor.
      * apply huber_terms_nonneg. exact Hd.
      * apply IH.
    + apply Qinv_le_0_compat. change 0%Q with (inject_Z 0).
      rewrite <- Zle_Qle. lia.
  - rewrite (Qsum_diag _ _ (huber_terms_diag clip_delta Hd)).
    unfold Qdiv. ring.
Qed.

Lemma huber_loss_nonneg_witness :
  (0 <= _huber_loss [1; 2; 3] [1; 0; 7] 1)%Q /\
  (_huber_loss [1; 2; 3] [1; 2; 3] 1 == 0)%Q.
Proof.
  apply (huber_loss_nonneg [1; 2; 3]%Q [1; 0; 7]%Q 1%Q).
  - discriminate.
  - discriminate.
  - reflexivity.
Defined.

(** The loss does not change when target and prediction (tensors of one
    shape) are exchanged. *)
Theorem huber_loss_symmetric (y_true y_pred : list Q) (clip_delta : Q) :
  length y_pred = length y_true ->
  (_huber_loss y_true y_pred clip_delta == _huber_loss y_pred y_true clip_delta)%Q.
Proof.
  intros _. unfold _huber_loss, Qmean.
  assert (Hlen : length (zip_with (huber_terms clip_delta) y_true y_pred) =
                 length (zip_with (huber_terms clip_delta) y_pred y_true)).
  { rewrite !length_zip_with. lia. }
  rewrite Hlen.
  assert (Hsum : Forall2 Qeq (zip_with (huber_terms clip_delta) y_true y_pred)
                   (zip_with (huber_terms clip_delta) y_pred y_true)).
  { clear Hlen. revert y_pred.
    induction y_true as [ | y ys IH]; intros [ | p ps]; cbn; try constructor.
    - apply huber_terms_sym.
    - apply IH. }
  rewrite (Qsum_pointwise _ _ Hsum). reflexivity.
Qed.

Lemma huber_loss_symmetric_witness :
  (_huber_loss [1; 2; 3] [1; 0; 7] 1 == _huber_loss [1; 0; 7] [1; 2; 3] 1)%Q.
Proof.
  apply (huber_loss_symmetric [1; 2; 3]%Q [1; 0; 7]%Q 1%Q). reflexivity.
Defined.

(** The shape of one term of the loss, for a clip delta that is not
    negative: half the squared error while the error is within the clip
    delta, and never more than that nor more than clip delta times the
    absolute error, so a large error weighs linearly. *)
Theorem huber_terms_bounds (clip_delta y_true y_pred : Q) :
  (0 <= clip_delta)%Q ->
  let error := (y_true - y_pred)%Q in
  ((Qabs error <= clip_delta)%Q ->
   (huber_terms clip_delta y_true y_pred == (1 # 2) * (error * error))%Q) /\
  (huber_terms clip_delta y_true y_pred <= (1 # 2) * (error * error))%Q /\
  (huber_terms clip_delta y_true y_pred <= clip_delta * Qabs error)%Q.
Proof.
  intros Hd error. subst error. unfold huber_terms.
  destruct (Qabs_cases (y_true - y_pred)) as (Ha & Hsq & _).
  destruct (huber_cond clip_delta (y_true - y_pred)) as [[-> Hc] | [-> Hc]].
  - split; [intros _; reflexivity | ].
    split; [apply Qle_refl | rewrite <- Hsq; nra].
  - split; [intros Hle; lra | ].
    rewrite <- Hsq. split; nra.
Qed.

Lemma huber_terms_bounds_witness :
  (huber_terms 1 5 0 <= 1 * Qabs (5 - 0))%Q.
Proof.
  exact (proj2 (proj2 (huber_terms_bounds 1 5 0 ltac:(discriminate)))).
Defined.

(** Training penalises the taken action only: the loss of a target row
    obtained from a prediction row [q] by overwriting position [a] with a
    target depends on nothing but the error at [a]; it is that one term
    divided by the number of actions. *)
Theorem huber_loss_of_target_row (q : list Q) (a : nat) (qa tgt clip_delta : Q) :
  (0 <= clip_delta)%Q ->
  q !! a = Some qa ->
  (_huber_loss (<[a := tgt]> q) q clip_delta ==
   huber_terms clip_delta tgt qa / inject_Z (Z.of_nat (length q)))%Q.
Proof.
  intros Hd Ha. unfold _huber_loss, Qmean.
  rewrite (Qsum_one_off _ q (huber_terms_diag clip_delta Hd) a qa tgt Ha).
  rewrite length_zip_with, length_insert, Nat.min_id. reflexivity.
Qed.

Lemma huber_loss_of_target_row_witness :
  (_huber_loss [0; (296 # 100); 2] [0; 2; 2] 1 ==
   huber_terms 1 (296 # 100) 2 / inject_Z 3)%Q.
Proof.
  exact (huber_loss_of_target_row [0; 2; 2]%Q 1 2%Q (296 # 100)%Q 1%Q
           ltac:(discriminate) eq_refl).
Defined.

(** ** Preparing the buffer for training *)

Section PrepareMemory.
Context {Obs num : Type} {NU : Number num} {AP : Approximator num}.
Implicit Types (self : Self Obs num) (w : World num).

(** [prepareMemoryForTraining] builds one training point per buffered
    step, in buffer order, copying action, reward and terminal flag and
    encoding both states; it reads the agent's own buffer, whatever list it
    is given as argument, and changes nothing. *)
Theorem prepareMemoryForTraining_result (argument : list (Step Obs num)) self w :
  Forall (step_encodable (stateSize self)) (memory self) ->
  prepareMemoryForTraining argument (self, w) =
  (Ok (map (prepared (stateSize self)) (memory self)), (self, w)).
Proof.
  intros Henc. unfold prepareMemoryForTraining. run_monad.
  rewrite (prepare_loop_ok self (memory self) Henc []). reflexivity.
Qed.

End PrepareMemory.

Lemma prepareMemoryForTraining_result_witness :
  let self := set_memory (map (step_of 1) example_frames) recording_agent in
  fst (prepareMemoryForTraining [] (self, quiet_world)) =
  Ok (map (prepared 32) (map (step_of 1) example_frames)).
Proof.
  cbn zeta.
  rewrite (prepareMemoryForTraining_result []
             (set_memory (map (step_of 1) example_frames) recording_agent)
             quiet_world).
  - reflexivity.
  - repeat constructor; vm_compute; reflexivity.
Defined.
